(** * SovereignInterchainRelayers: the duty module's messages and the duty agent

    A shallow embedding of

    - [SovereignChain/x/duty/types/msgs.go]: the four transaction messages
      of the [x/duty] module with their [ValidateBasic], [GetSignBytes] and
      [GetSigners] methods;
    - the duty agent's [main.go] ([readEnvConfig], [validateConfig],
      [sendHeartbeat] and the ticker loop of [main]);
    - the Duty Registry of the design document, which has no source file
      and is modelled from its description.

    Calls into the Go standard library and the Cosmos SDK are not part of
    the repository: they appear as fields of a record of host functions
    (or as section variables). A call with an error result returns a value
    or an error; [tx.NewFactoryCLI], which has none, returns or panics. *)

From Stdlib Require Import ZArith String List.
From stdpp Require Import base option list sorting strings pretty gmap.

Set Warnings "-register-all".


(** ** Go values *)

Module Go.

(** A Go [[]byte]: [None] is the nil slice, [Some l] a slice holding [l].
    Both [nil] and the empty slice have length 0. *)
Definition slice := option (list Byte.byte).

Definition len (s : slice) : nat :=
  match s with
  | None => 0
  | Some l => length l
  end.

(** A Go [error] value: a message, possibly wrapping an inner error
    ([fmt.Errorf] with [%w], [sdkerrors.Wrap]). *)
Inductive error :=
| errorString (msg : string)
| wrapped (msg : string) (inner : error).

(** The pair [(value, err)] a fallible Go call returns. *)
Inductive result (A : Type) :=
| Ok (a : A)
| Err (e : error).
Global Arguments Ok {A} a.
Global Arguments Err {A} e.

Definition is_ok {A} (r : result A) : bool :=
  match r with Ok _ => true | Err _ => false end.

(** What a call without an error result does: it returns, or it panics. *)
Inductive call (A : Type) :=
| Returns (a : A)
| Panics (reason : string).
Global Arguments Returns {A} a.
Global Arguments Panics {A} reason.

(** How the body of a function with an error result ends: it returns (a
    value or an error), or a panic unwinds it. *)
Inductive completion (A : Type) :=
| Done (r : result A)
| Panic (reason : string).
Global Arguments Done {A} r.
Global Arguments Panic {A} reason.

Coercion Done : result >-> completion.

End Go.
Import Go.

(** ** JSON text, as encoding/json and the SDK produce it *)

Module Json.

(** The double quote character; string literals here never contain it. *)
Definition dq : string := String (Ascii.ascii_of_nat 34) EmptyString.

(** [quote_plain s] is how encoding/json writes a string that consists of
    printable ASCII other than the double quote, the backslash and the
    three HTML-sensitive characters: between double quotes, unchanged.
    The encoders below take the quoting function as an argument. *)
Definition quote_plain (s : string) : string := dq +:+ s +:+ dq.

Fixpoint join (sep : string) (l : list string) : string :=
  match l with
  | [] => ""
  | [x] => x
  | x :: rest => x +:+ sep +:+ join sep rest
  end.

(** Members of an object are ordered by their keys, compared byte-wise. *)
Definition key_le {A} : relation (string * A) := λ a b, String.le a.1 b.1.

Global Instance key_le_dec {A} : RelDecision (@key_le A).
Proof. intros a b. unfold key_le. apply _. Defined.

Definition sort_members {A} (l : list (string * A)) : list (string * A) :=
  merge_sort key_le l.

(** A JSON document: scalars are kept as the text the encoder wrote for
    them (null, true, a number, a quoted string). *)
Inductive json :=
| JScalar (text : string)
| JArray (items : list json)
| JObject (members : list (string * json)).

Section Render.
Variable quote : string → string.

Fixpoint render (j : json) : string :=
  match j with
  | JScalar t => t
  | JArray items => "[" +:+ join "," (render <$> items) +:+ "]"
  | JObject members =>
      "{" +:+ join ","
            ((λ kv, match kv with
                    | (k, v) => quote k +:+ ":" +:+ render v
                    end) <$> members) +:+ "}"
  end.

(** [json.Marshal] on a [map[string]uint64]: one member per entry,
    written in ascending key order, the value in decimal. *)
Definition heights_members (m : gmap string N) : list (string * json) :=
  (λ kv, (kv.1, JScalar (pretty kv.2))) <$> sort_members (map_to_list m).

Definition Marshal_heights (m : gmap string N) : string :=
  render (JObject (heights_members m)).

(** [sdk.SortJSON]: the document is decoded into generic values and
    encoded again, which writes every object's members in ascending key
    order. The model works on the decoded document and assumes that no
    object has a repeated key. It is a model of the order of members only:
    a scalar keeps the text the first encoder wrote, where the library
    writes it anew (a bare number through a float64). *)
Fixpoint sort_keys (j : json) : json :=
  match j with
  | JScalar t => JScalar t
  | JArray items => JArray (sort_keys <$> items)
  | JObject members =>
      JObject (sort_members
                 ((λ kv, match kv with
                         | (k, v) => (k, sort_keys v)
                         end) <$> members))
  end.

Definition MustSortJSON (j : json) : string := render (sort_keys j).
End Render.

End Json.

(** ** x/duty/types/msgs.go *)

Module types.
Import Json.

(** [sdk.ValAddress] and [sdk.AccAddress] are both [[]byte]; [Empty]
    tests the length. *)
Definition ValAddress := slice.
Definition AccAddress := slice.

Definition Empty (a : slice) : bool := Nat.eqb (len a) 0.

(** The conversion [sdk.AccAddress(v)] keeps the bytes. *)
Definition AccAddress_of (v : ValAddress) : AccAddress := v.

(** Modelled from the spec: the [Route] struct is declared outside
    [msgs.go]; it is the ordered pair of an origin and a destination
    chain id (the agent reads its fields [Origin] and [Destination]). *)
Record Route := { Origin : string; Destination : string }.

Record MsgRegisterSidecars := {
  rs_ValAddr : ValAddress;          (* json: val_addr *)
  rs_RelayerPubKey : slice;         (* json: relayer_pub_key *)
  rs_ValidatorPubKey : slice;       (* json: validator_pub_key *)
}.

Record MsgHeartbeat := {
  hb_ValAddr : ValAddress;          (* json: val_addr *)
  hb_OriginHeightsJSON : string;    (* json: origin_heights_json *)
  hb_Sig : slice;                   (* json: sig *)
}.

Record MsgReportMissed := {
  rm_Route : Route;                 (* json: route *)
  rm_MsgID : N;                     (* json: msg_id, a uint64 *)
  rm_AssignedVal : ValAddress;      (* json: assigned_val *)
  rm_OriginProof : slice;           (* json: origin_proof *)
  rm_DestNonInclusionProof : slice; (* json: dest_non_inclusion_proof *)
  rm_Signer : AccAddress;           (* json: signer *)
}.

Record MsgReportInvalid := {
  ri_Route : Route;                 (* json: route *)
  ri_MsgID : N;                     (* json: msg_id, a uint64 *)
  ri_AssignedVal : ValAddress;      (* json: assigned_val *)
  ri_DestFailureProof : slice;      (* json: dest_failure_proof *)
  ri_Signer : AccAddress;           (* json: signer *)
}.

Definition NewMsgRegisterSidecars (valAddr : ValAddress)
    (relayerPubKey validatorPubKey : slice) : MsgRegisterSidecars :=
  {| rs_ValAddr := valAddr;
     rs_RelayerPubKey := relayerPubKey;
     rs_ValidatorPubKey := validatorPubKey |}.

Definition NewMsgHeartbeat (valAddr : ValAddress)
    (originHeightsJSON : string) (sig : slice) : MsgHeartbeat :=
  {| hb_ValAddr := valAddr;
     hb_OriginHeightsJSON := originHeightsJSON;
     hb_Sig := sig |}.

Definition NewMsgReportMissed (route : Route) (msgID : N)
    (assignedVal : ValAddress) (originProof destNonInclusionProof : slice)
    (signer : AccAddress) : MsgReportMissed :=
  {| rm_Route := route;
     rm_MsgID := msgID;
     rm_AssignedVal := assignedVal;
     rm_OriginProof := originProof;
     rm_DestNonInclusionProof := destNonInclusionProof;
     rm_Signer := signer |}.

Definition NewMsgReportInvalid (route : Route) (msgID : N)
    (assignedVal : ValAddress) (destFailureProof : slice)
    (signer : AccAddress) : MsgReportInvalid :=
  {| ri_Route := route;
     ri_MsgID := msgID;
     ri_AssignedVal := assignedVal;
     ri_DestFailureProof := destFailureProof;
     ri_Signer := signer |}.

(** [sdkerrors.ErrInvalidAddress] and [sdkerrors.Wrap]. *)
Definition ErrInvalidAddress : error := errorString "invalid address".
Definition Wrap (err : error) (description : string) : error :=
  wrapped description err.

(** The JSON codec of the module ([ModuleCdc], declared outside
    [msgs.go]): how it writes each kind of field, and in which order it
    writes the members of a struct. *)
Record Codec := {
  encValAddress : ValAddress → json;
  encAccAddress : AccAddress → json;
  encBytes : slice → json;
  encUint64 : N → json;
  encString : string → json;
  encRoute : Route → json;
  memberOrder : list (string * json) → list (string * json);
}.

(** What [msgs.go] takes from the rest of its package and from
    encoding/json. *)
Record Package := {
  RouterKey : string;
  ModuleCdc : Codec;
  jsonQuote : string → string;
}.

(** The members of each message's JSON object, under the struct tags and
    in declaration order. *)
Definition members_RegisterSidecars (c : Codec) (msg : MsgRegisterSidecars)
    : list (string * json) :=
  [ ("val_addr", encValAddress c (rs_ValAddr msg));
    ("relayer_pub_key", encBytes c (rs_RelayerPubKey msg));
    ("validator_pub_key", encBytes c (rs_ValidatorPubKey msg)) ].

Definition members_Heartbeat (c : Codec) (msg : MsgHeartbeat)
    : list (string * json) :=
  [ ("val_addr", encValAddress c (hb_ValAddr msg));
    ("origin_heights_json", encString c (hb_OriginHeightsJSON msg));
    ("sig", encBytes c (hb_Sig msg)) ].

Definition members_ReportMissed (c : Codec) (msg : MsgReportMissed)
    : list (string * json) :=
  [ ("route", encRoute c (rm_Route msg));
    ("msg_id", encUint64 c (rm_MsgID msg));
    ("assigned_val", encValAddress c (rm_AssignedVal msg));
    ("origin_proof", encBytes c (rm_OriginProof msg));
    ("dest_non_inclusion_proof", encBytes c (rm_DestNonInclusionProof msg));
    ("signer", encAccAddress c (rm_Signer msg)) ].

Definition members_ReportInvalid (c : Codec) (msg : MsgReportInvalid)
    : list (string * json) :=
  [ ("route", encRoute c (ri_Route msg));
    ("msg_id", encUint64 c (ri_MsgID msg));
    ("assigned_val", encValAddress c (ri_AssignedVal msg));
    ("dest_failure_proof", encBytes c (ri_DestFailureProof msg));
    ("signer", encAccAddress c (ri_Signer msg)) ].

(** [ModuleCdc.MustMarshalJSON(&msg)]: the object of the message's
    members, as the codec orders them. *)
Definition MustMarshalJSON (c : Codec) (members : list (string * json))
    : json :=
  JObject (memberOrder c members).

(** The same package with a codec that writes struct members in another
    order. *)
Definition withMemberOrder (pkg : Package)
    (order : list (string * json) → list (string * json)) : Package :=
  {| RouterKey := RouterKey pkg;
     ModuleCdc :=
       {| encValAddress := encValAddress (ModuleCdc pkg);
          encAccAddress := encAccAddress (ModuleCdc pkg);
          encBytes := encBytes (ModuleCdc pkg);
          encUint64 := encUint64 (ModuleCdc pkg);
          encString := encString (ModuleCdc pkg);
          encRoute := encRoute (ModuleCdc pkg);
          memberOrder := order |};
     jsonQuote := jsonQuote pkg |}.

(** The [sdk.Msg] interface, which the file asserts for the four types. *)
Class Msg (M : Type) := {
  msgRoute : Package → M → string;
  msgType : M → string;
  ValidateBasic : M → option error;
  GetSignBytes : Package → M → string;
  GetSigners : M → list AccAddress;
}.

Global Instance MsgRegisterSidecars_Msg : Msg MsgRegisterSidecars := {|
  msgRoute pkg _ := RouterKey pkg;
  msgType _ := "register_sidecars";
  ValidateBasic msg :=
    if Empty (rs_ValAddr msg)
    then Some (Wrap ErrInvalidAddress "validator address cannot be empty")
    else None;
  GetSignBytes pkg msg :=
    MustSortJSON (jsonQuote pkg)
      (MustMarshalJSON (ModuleCdc pkg)
         (members_RegisterSidecars (ModuleCdc pkg) msg));
  GetSigners msg := [AccAddress_of (rs_ValAddr msg)];
|}.

Global Instance MsgHeartbeat_Msg : Msg MsgHeartbeat := {|
  msgRoute pkg _ := RouterKey pkg;
  msgType _ := "heartbeat";
  ValidateBasic msg :=
    if Empty (hb_ValAddr msg)
    then Some (Wrap ErrInvalidAddress "validator address cannot be empty")
    else None;
  GetSignBytes pkg msg :=
    MustSortJSON (jsonQuote pkg)
      (MustMarshalJSON (ModuleCdc pkg)
         (members_Heartbeat (ModuleCdc pkg) msg));
  GetSigners msg := [AccAddress_of (hb_ValAddr msg)];
|}.

Global Instance MsgReportMissed_Msg : Msg MsgReportMissed := {|
  msgRoute pkg _ := RouterKey pkg;
  msgType _ := "report_missed";
  ValidateBasic msg :=
    if Empty (rm_AssignedVal msg)
    then Some (Wrap ErrInvalidAddress
                 "assigned validator address cannot be empty")
    else if Empty (rm_Signer msg)
    then Some (Wrap ErrInvalidAddress "signer address cannot be empty")
    else None;
  GetSignBytes pkg msg :=
    MustSortJSON (jsonQuote pkg)
      (MustMarshalJSON (ModuleCdc pkg)
         (members_ReportMissed (ModuleCdc pkg) msg));
  GetSigners msg := [rm_Signer msg];
|}.

Global Instance MsgReportInvalid_Msg : Msg MsgReportInvalid := {|
  msgRoute pkg _ := RouterKey pkg;
  msgType _ := "report_invalid";
  ValidateBasic msg :=
    if Empty (ri_AssignedVal msg)
    then Some (Wrap ErrInvalidAddress
                 "assigned validator address cannot be empty")
    else if Empty (ri_Signer msg)
    then Some (Wrap ErrInvalidAddress "signer address cannot be empty")
    else None;
  GetSignBytes pkg msg :=
    MustSortJSON (jsonQuote pkg)
      (MustMarshalJSON (ModuleCdc pkg)
         (members_ReportInvalid (ModuleCdc pkg) msg));
  GetSigners msg := [ri_Signer msg];
|}.

End types.

(** ** agents/duty-agent/main.go *)

Module agent.
Import Json types.

(** What the process does that can be seen from outside, in order. *)
Inductive Arg :=
| AStr (s : string)
| AErr (e : error)
| ADuration (d : Z).

Inductive Event :=
| Log (format : string) (args : list Arg)       (* log.Println, log.Printf *)
| Stdout (line : string)                        (* fmt.Println *)
| ReadFile (path : string)                      (* os.ReadFile *)
| KeyringSign (uid : string) (payload : string) (* kr.Sign *)
| BuildUnsignedTx (msg : MsgHeartbeat)          (* tx.BuildUnsignedTx *)
| SignTx (name : string)                        (* tx.Sign *)
| NewClientFromNode (nodeURI : string)          (* client.NewClientFromNode *)
| BroadcastTx (txBytes : string).               (* clientCtx.BroadcastTx *)

(** The two events of the broadcast branch of [sendHeartbeat]. *)
Definition is_broadcast (ev : Event) : bool :=
  match ev with
  | NewClientFromNode _ | BroadcastTx _ => true
  | _ => false
  end.

(** The payloads handed to [kr.Sign], and the messages handed to
    [tx.BuildUnsignedTx], in a sequence of events. *)
Definition signed_payloads (t : list Event) : list string :=
  omap (λ ev, match ev with KeyringSign _ p => Some p | _ => None end) t.

Definition built_messages (t : list Event) : list MsgHeartbeat :=
  omap (λ ev, match ev with BuildUnsignedTx m => Some m | _ => None end) t.

(** A function body that performs effects: the events so far, and how it
    ended. A returned error and a panic both end the body where they
    occur. *)
Definition M (A : Type) : Type := list Event * completion A.

Definition M_ret {A} (a : A) : M A := ([], Done (Ok a)).

Definition M_bind {A B} (f : A → M B) (m : M A) : M B :=
  match m with
  | (t, Done (Ok a)) => let '(t', r) := f a in (t ++ t', r)
  | (t, Done (Err e)) => (t, Done (Err e))
  | (t, Panic reason) => (t, Panic reason)
  end.

Global Instance M_MRet : MRet M := @M_ret.
Global Instance M_MBind : MBind M := @M_bind.

Definition emit (ev : Event) : M unit := ([ev], Done (Ok tt)).

(** [if err != nil { return fmt.Errorf(context + ": %w", err) }] *)
Definition try {A} (r : result A) (context : string) : M A :=
  match r with
  | Ok a => ([], Done (Ok a))
  | Err err => ([], Done (Err (wrapped context err)))
  end.

(** A call without an error result, inside a function body. *)
Definition calling {A} (c : call A) : M A :=
  match c with
  | Returns a => ([], Done (Ok a))
  | Panics reason => ([], Panic reason)
  end.

(** [time.Duration] counts nanoseconds in an int64. *)
Definition Second : Z := 1000000000.

Record Config := {
  SovereignRPC : string;
  SovereignGRPC : string;
  SovereignChainID : string;
  ValAddr : string;
  RelayerKeyPath : string;
  RelayerBin : string;
  HeartbeatPeriod : Z;
}.

(** The library calls of the startup code. [os_Getenv] returns the empty
    string for a variable that is not set. *)
Record Host := {
  os_Getenv : string → string;
  time_ParseDuration : string → result Z;
  sdk_ValAddressFromBech32 : string → result ValAddress;
}.

Definition readEnvConfig (h : Host) : list Event * Config :=
  let periodStr := os_Getenv h "HEARTBEAT_PERIOD" in
  let '(logged, period) :=
    match time_ParseDuration h periodStr with
    | Err err =>
        ([Log "Invalid HEARTBEAT_PERIOD '%s', defaulting to 30s. Error: %v"
              [AStr periodStr; AErr err]],
         (30 * Second)%Z)
    | Ok period => ([], period)
    end in
  (logged,
   {| SovereignRPC := os_Getenv h "SOVEREIGN_RPC";
      SovereignGRPC := os_Getenv h "SOVEREIGN_GRPC";
      SovereignChainID := os_Getenv h "SOVEREIGN_CHAIN_ID";
      ValAddr := os_Getenv h "VAL_ADDR";
      RelayerKeyPath := os_Getenv h "RELAYER_KEY_PATH";
      RelayerBin := os_Getenv h "RELAYER_BIN";
      HeartbeatPeriod := period |}).

Definition validateConfig (c : Config) : option error :=
  if String.eqb (SovereignRPC c) "" then
    Some (errorString "SOVEREIGN_RPC must be set")
  else if String.eqb (SovereignGRPC c) "" then
    Some (errorString "SOVEREIGN_GRPC must be set")
  else if String.eqb (SovereignChainID c) "" then
    Some (errorString "SOVEREIGN_CHAIN_ID must be set")
  else if String.eqb (ValAddr c) "" then
    Some (errorString "VAL_ADDR must be set")
  else if String.eqb (RelayerKeyPath c) "" then
    Some (errorString "RELAYER_KEY_PATH must be set")
  else if String.eqb (RelayerBin c) "" then
    Some (errorString "RELAYER_BIN must be set")
  else None.

(** [flags.DefaultGasLimit] of the SDK. *)
Definition DefaultGasLimit : N := 200000.

Section Tick.

(** The SDK's keyring, key record, transaction builder and RPC client are
    opaque to the agent. *)
Context {Keyring KeyRecord TxBuilder RPCClient : Type}.

(** How encoding/json writes a string between double quotes, escaping what
    it must: one fixed function of the library. *)
Context (quote : string → string).

(** [client.Context], with the fields the agent sets. The transaction
    configuration and the interface registry of [app.MakeEncodingConfig]
    are represented by the two encoders of [World]. *)
Record ClientContext := {
  ctx_Client : option RPCClient;
  ctx_ChainID : string;
  ctx_Keyring : option Keyring;
  ctx_FromAddress : AccAddress;
  ctx_FromName : string;
}.

Definition WithClient (ctx : ClientContext) (c : option RPCClient)
    : ClientContext :=
  {| ctx_Client := c;
     ctx_ChainID := ctx_ChainID ctx;
     ctx_Keyring := ctx_Keyring ctx;
     ctx_FromAddress := ctx_FromAddress ctx;
     ctx_FromName := ctx_FromName ctx |}.

(** [tx.Factory], with the fields the agent sets. *)
Record Factory := {
  f_ctx : ClientContext;
  f_Gas : N;
  f_Fees : string;
}.

Definition WithGas (f : Factory) (gas : N) : Factory :=
  {| f_ctx := f_ctx f; f_Gas := gas; f_Fees := f_Fees f |}.

Definition WithFees (f : Factory) (fees : string) : Factory :=
  {| f_ctx := f_ctx f; f_Gas := f_Gas f; f_Fees := fees |}.

(** A [*pflag.FlagSet], when it is not nil: flag names with their values. *)
Definition FlagSet := list (string * string).

(** The library calls of [sendHeartbeat], as they answer during one tick.
    A call that changes its receiver ([ImportPrivKey] the keyring,
    [tx.Sign] the builder) returns the receiver's new state.
    [tx_NewFactoryCLI] takes the flag set as an option, [None] being the
    nil pointer that [sendHeartbeat] passes. *)
Record World := {
  tx_NewFactoryCLI : ClientContext → option FlagSet → call Factory;
  keyring_New : string → result Keyring;
  os_ReadFile : string → result string;
  kr_ImportPrivKey : Keyring → string → string → string → result Keyring;
  kr_Key : Keyring → string → result KeyRecord;
  kr_Sign : Keyring → string → string → result slice;
  key_GetAddress : KeyRecord → AccAddress;
  tx_BuildUnsignedTx : Factory → MsgHeartbeat → result TxBuilder;
  tx_Sign : Factory → string → TxBuilder → bool → result TxBuilder;
  TxJSONEncoder : TxBuilder → result string;
  TxEncoder : TxBuilder → result string;
  client_NewClientFromNode : string → result RPCClient;
  ctx_BroadcastTx : ClientContext → string → result string;
}.

(** [json.Marshal(originHeights)]; it has no failing case on a map from
    strings to integers. *)
Definition json_Marshal (m : gmap string N) : result string :=
  Ok (Marshal_heights quote m).

(** The client context that [sendHeartbeat] assembles with its [With...]
    calls. *)
Definition heartbeatContext (w : World) (config : Config) (kr : Keyring)
    (relayerKey : KeyRecord) : ClientContext :=
  {| ctx_Client := None;
     ctx_ChainID := SovereignChainID config;
     ctx_Keyring := Some kr;
     ctx_FromAddress := key_GetAddress w relayerKey;
     ctx_FromName := "relayer" |}.

(** The SDK against which the source is written reads its flags through
    the flag set it is given: on the nil flag set [NewFactoryCLI] panics
    with a nil pointer dereference. [sdk_panics_on_nil_flags w] says that
    the world [w] has this SDK. *)
Definition sdk_panics_on_nil_flags (w : World) : Prop :=
  ∀ clientCtx, ∃ reason, tx_NewFactoryCLI w clientCtx None = Panics reason.

(** The map literal of [sendHeartbeat]. *)
Definition originHeights : gmap string N :=
  <["other-2" := 456%N]> (<["light-1" := 123%N]> ∅).

(** The body of [sendHeartbeat] from the call of [json.Marshal] on, with the
    local variable [originHeights] as an argument. The byte slice
    [originHeightsJSON] and its conversions to and from [string] are the
    same sequence of bytes. *)
Definition sendHeartbeatOver (originHeights : gmap string N) (w : World)
    (config : Config) (valAddr : ValAddress) (dryRun : bool) : M unit :=
  emit (Log "Building heartbeat transaction..." []);;
  originHeightsJSON ←
    try (json_Marshal originHeights) "failed to marshal origin heights";
  kr ← try (keyring_New w "duty-agent") "failed to create keyring";
  emit (ReadFile (RelayerKeyPath config));;
  keyBytes ←
    try (os_ReadFile w (RelayerKeyPath config)) "failed to read relayer key";
  kr ← try (kr_ImportPrivKey w kr "relayer" keyBytes "password")
         "failed to import private key";
  relayerKey ← try (kr_Key w kr "relayer") "failed to get key from keyring";
  emit (KeyringSign "relayer" originHeightsJSON);;
  sig ← try (kr_Sign w kr "relayer" originHeightsJSON)
          "failed to sign heartbeat data";
  let msg := NewMsgHeartbeat valAddr originHeightsJSON sig in
  let clientCtx := heartbeatContext w config kr relayerKey in
  txf ← calling (tx_NewFactoryCLI w clientCtx None);
  let txf := WithFees (WithGas txf DefaultGasLimit) "200usov" in
  emit (BuildUnsignedTx msg);;
  txb ← try (tx_BuildUnsignedTx w txf msg) "failed to build unsigned tx";
  emit (SignTx "relayer");;
  txb ← try (tx_Sign w txf "relayer" txb true) "failed to sign tx";
  txJSON ← try (TxJSONEncoder w txb) "failed to encode tx to JSON";
  if dryRun then
    emit (Log "Dry run enabled. Transaction JSON:" []);;
    emit (Stdout txJSON)
  else
    emit (NewClientFromNode (SovereignRPC config));;
    rpcClient ← try (client_NewClientFromNode w (SovereignRPC config))
                  "failed to create RPC client";
    let clientCtx := WithClient clientCtx (Some rpcClient) in
    txBytes ← try (TxEncoder w txb) "failed to encode tx to bytes";
    emit (BroadcastTx txBytes);;
    txHash ← try (ctx_BroadcastTx w clientCtx txBytes) "broadcast failed";
    emit (Log "Heartbeat sent successfully! TxHash: %s" [AStr txHash]).

Definition sendHeartbeat : World → Config → ValAddress → bool → M unit :=
  sendHeartbeatOver originHeights.

(** One iteration of the [for range ticker.C] loop. The duty query and the
    relayer execution are commented out in the source; what runs is the two
    log lines and the heartbeat. An error that [sendHeartbeat] returns is
    logged and the iteration is over; a panic inside [sendHeartbeat] is not
    recovered and unwinds the iteration. *)
Definition tick (config : Config) (valAddr : ValAddress) (dryRun : bool)
    (w : World) : M unit :=
  emit (Log "Ticker event: checking for duties and sending heartbeat..." []);;
  emit (Log "Querying for duty assignments..." []);;
  match sendHeartbeat w config valAddr dryRun with
  | (t, Done (Err err)) =>
      (t ++ [Log "Error sending heartbeat: %v" [AErr err]], Done (Ok tt))
  | (t, Done (Ok _)) => (t, Done (Ok tt))
  | (t, Panic reason) => (t, Panic reason)
  end.

(** How a run over finitely many ticks ends: [log.Fatalf] exits with
    status 1, a panic ends the process, and otherwise the process is still
    there, waiting on the ticker channel. *)
Inductive Outcome :=
| Exited (code : Z)
| Panicked (reason : string)
| Waiting.

(** The loop, run for the ticks that the ticker delivers; [ws] gives the
    answers of the outside world during each of them. A panic in an
    iteration unwinds [main]: the process ends and the later ticks do not
    run. *)
Fixpoint loop (config : Config) (valAddr : ValAddress) (dryRun : bool)
    (ws : list World) : list Event * Outcome :=
  match ws with
  | [] => ([], Waiting)
  | w :: rest =>
      match tick config valAddr dryRun w with
      | (t, Panic reason) => (t, Panicked reason)
      | (t, Done _) =>
          let '(t', o) := loop config valAddr dryRun rest in
          (t ++ t', o)
      end
  end.

(** [main], with the value of the [--dry-run] flag after [flag.Parse].
    [time.NewTicker] panics on a period that is not positive. *)
Definition main (dryRun : bool) (h : Host) (ws : list World)
    : list Event * Outcome :=
  let '(t0, config) := readEnvConfig h in
  match validateConfig config with
  | Some err => (t0 ++ [Log "Configuration error: %v" [AErr err]], Exited 1)
  | None =>
      match sdk_ValAddressFromBech32 h (ValAddr config) with
      | Err err =>
          (t0 ++ [Log "Invalid validator address: %v" [AErr err]], Exited 1)
      | Ok valAddr =>
          let t1 :=
            [ Log "Starting duty agent for validator %s"
                  [AStr (ValAddr config)];
              Log "Heartbeat period: %s"
                  [ADuration (HeartbeatPeriod config)] ] in
          if (HeartbeatPeriod config <=? 0)%Z then
            (t0 ++ t1, Panicked "non-positive interval for NewTicker")
          else
            let '(t2, o) := loop config valAddr dryRun ws in
            (t0 ++ t1 ++ t2, o)
      end
  end.

End Tick.

End agent.

(** ** The Duty Registry *)

Module registry.
Import types.

Global Instance byte_eq_dec : EqDecision Byte.byte := Byte.byte_eq_dec.

(** Modelled from the spec: the status of a duty, which no source file
    declares. [Pending] is the only status that is not terminal. *)
Inductive Status := Pending | Fulfilled | Missed | Invalid.

Global Instance Status_eq_dec : EqDecision Status.
Proof. solve_decision. Defined.

Definition terminal (s : Status) : bool :=
  match s with
  | Pending => false
  | Fulfilled | Missed | Invalid => true
  end.

(** Modelled from the spec: the duty record of the data model, which no
    source file declares; heights and message ids are uint64. *)
Record Duty := {
  route : Route;
  messageId : N;
  assignedValidator : ValAddress;
  createdHeight : N;
  deadlineHeight : N;
  status : Status;
}.

(** A duty is filed under its route and message id. *)
Definition key (r : Route) (id : N) : string * string * N :=
  (Origin r, Destination r, id).

Definition key_of (d : Duty) : string * string * N :=
  key (route d) (messageId d).

Abbreviation Registry := (gmap (string * string * N) Duty).

(** Modelled from the spec: [get(route, messageId)], which no source file
    implements; [None] is the NotFound signal. *)
Definition get (reg : Registry) (r : Route) (id : N) : option Duty :=
  reg !! key r id.

(** Modelled from the spec: [listByValidator(validator)], which no source
    file implements. *)
Definition listByValidator (reg : Registry) (v : ValAddress) : list Duty :=
  filter (λ d, assignedValidator d = v) (map_to_list reg).*2.

Inductive Verdict := Accepted | Rejected.

(** Modelled from the spec: [upsert(duty)], which no source file
    implements. It rejects any transition whose source status is already
    terminal, as a no-op; otherwise the record is stored under its key.
    Nothing deletes a record. *)
Definition upsert (d : Duty) (reg : Registry) : Registry * Verdict :=
  match reg !! key_of d with
  | Some old =>
      if terminal (status old) then (reg, Rejected)
      else (<[key_of d := d]> reg, Accepted)
  | None => (<[key_of d := d]> reg, Accepted)
  end.

(** The operations of the registry's contract, and a sequence of them
    applied in order. *)
Inductive Op :=
| OpGet (r : Route) (id : N)
| OpListByValidator (v : ValAddress)
| OpUpsert (d : Duty).

Definition apply (reg : Registry) (op : Op) : Registry :=
  match op with
  | OpGet _ _ => reg
  | OpListByValidator _ => reg
  | OpUpsert d => (upsert d reg).1
  end.

Definition run (ops : list Op) (reg : Registry) : Registry :=
  foldl apply reg ops.

End registry.

(** ** Bech32 addresses, as the SDK decodes them *)

Module Bech32.
Import types.

Definition charset : list Ascii.ascii :=
  String.list_ascii_of_string "qpzry9x8gf2tvdw0s3jn54khce6mua7l".

Fixpoint index_in (c : Ascii.ascii) (l : list Ascii.ascii) : option N :=
  match l with
  | [] => None
  | x :: rest =>
      if Ascii.eqb c x then Some 0%N else N.succ <$> index_in c rest
  end.

(** The checksum: the generator constants 3b6a57b2, 26508e6d, 1ea119fa,
    3d4233dd and 2a1462b3, each with the bit of [chk >> 25] that selects
    it. *)
Definition generator : list (N * N) :=
  [ (0, 996825010); (1, 642813549); (2, 513874426); (3, 1027748829);
    (4, 705979059) ]%N.

Definition polymod_step (chk v : N) : N :=
  let top := N.shiftr chk 25 in
  foldl (λ acc g, if N.testbit top g.1 then N.lxor acc g.2 else acc)
    (N.lxor (N.shiftl (N.land chk 33554431) 5) v) generator.

Definition polymod (values : list N) : N := foldl polymod_step 1%N values.

Definition code (c : Ascii.ascii) : N := Ascii.N_of_ascii c.

Definition hrp_expand (hrp : list Ascii.ascii) : list N :=
  ((λ c, N.shiftr (code c) 5) <$> hrp) ++ [0%N]
  ++ ((λ c, N.land (code c) 31) <$> hrp).

Definition verify_checksum (hrp : list Ascii.ascii) (data : list N) : bool :=
  N.eqb (polymod (hrp_expand hrp ++ data)) 1.

Definition to_lower (c : Ascii.ascii) : Ascii.ascii :=
  if (N.leb 65 (code c) && N.leb (code c) 90)%bool
  then Ascii.ascii_of_N (code c + 32) else c.

Definition to_upper (c : Ascii.ascii) : Ascii.ascii :=
  if (N.leb 97 (code c) && N.leb (code c) 122)%bool
  then Ascii.ascii_of_N (code c - 32) else c.

(** The position of the last character 1, if there is one. *)
Fixpoint last_one (l : list Ascii.ascii) (i : nat) (found : option nat)
    : option nat :=
  match l with
  | [] => found
  | c :: rest =>
      last_one rest (S i) (if Ascii.eqb c (Ascii.ascii_of_nat 49) then Some i else found)
  end.

Fixpoint to_values (data : list Ascii.ascii) : option (list N) :=
  match data with
  | [] => Some []
  | c :: rest =>
      match index_in c charset, to_values rest with
      | Some v, Some vs => Some (v :: vs)
      | _, _ => None
      end
  end.

(** [bech32.Decode]: the human-readable part and the five-bit values
    without the six of the checksum. *)
Definition Decode (bech : list Ascii.ascii) (limit : nat)
    : result (list Ascii.ascii * list N) :=
  if (Nat.ltb (length bech) 8 || Nat.ltb limit (length bech))%bool then
    Err (errorString "invalid bech32 string length")
  else if negb (forallb (λ c, N.leb 33 (code c) && N.leb (code c) 126)%bool
                  bech) then
    Err (errorString "invalid character in string")
  else if negb (bool_decide (bech = to_lower <$> bech)
                || bool_decide (bech = to_upper <$> bech))%bool then
    Err (errorString "string not all lowercase or all uppercase")
  else
    let bech := to_lower <$> bech in
    match last_one bech 0 None with
    | None => Err (errorString "invalid separator index -1")
    | Some one =>
        if (Nat.ltb one 1 || Nat.ltb (length bech) (one + 7))%bool then
          Err (errorString
                 ("invalid separator index " +:+ pretty (N.of_nat one)))
        else
          let hrp := take one bech in
          match to_values (drop (S one) bech) with
          | None => Err (errorString "invalid character not part of charset")
          | Some decoded =>
              if verify_checksum hrp decoded then
                Ok (hrp, take (length decoded - 6) decoded)
              else Err (errorString "invalid checksum")
          end
    end.

(** [bech32.ConvertBits(data, 5, 8, false)]: groups of five bits regrouped
    into bytes; what is left over must be less than five bits, all zero. *)
Fixpoint convert_5_to_8 (data : list N) (acc bits : N) : option (list N) :=
  match data with
  | [] =>
      if (N.leb 5 bits || negb (N.eqb (N.land (N.shiftl acc (8 - bits)) 255) 0))%bool
      then None else Some []
  | v :: rest =>
      let acc := N.lor (N.shiftl acc 5) v in
      let bits := (bits + 5)%N in
      if N.leb 8 bits then
        let bits := (bits - 8)%N in
        cons (N.land (N.shiftr acc bits) 255)
          <$> convert_5_to_8 rest (N.land acc (N.ones bits)) bits
      else convert_5_to_8 rest acc bits
  end.

Definition to_byte (n : N) : Byte.byte := default Byte.x00 (Byte.of_N n).

Definition is_space (c : Ascii.ascii) : bool :=
  bool_decide (code c ∈ [9; 10; 11; 12; 13; 32]%N).

(** [sdk.ValAddressFromBech32] under the validator prefix [prefix], with
    the default verifier of address lengths. *)
Definition ValAddressFromBech32 (prefix address : string)
    : result ValAddress :=
  let chars := String.list_ascii_of_string address in
  if forallb is_space chars then
    Err (errorString "empty address string is not allowed")
  else
    match Decode chars 1023 with
    | Err err => Err (wrapped "decoding bech32 failed" err)
    | Ok (hrp, data) =>
        match convert_5_to_8 data 0 0 with
        | None =>
            Err (wrapped "decoding bech32 failed"
                   (errorString "invalid incomplete group"))
        | Some bz =>
            if negb (String.eqb (String.string_of_list_ascii hrp) prefix)
            then Err (errorString "invalid Bech32 prefix")
            else if Nat.eqb (length bz) 0 then
              Err (wrapped "addresses cannot be empty"
                     (errorString "unknown address"))
            else if Nat.ltb 255 (length bz) then
              Err (wrapped "address max length is 255"
                     (errorString "unknown address"))
            else Ok (Some (to_byte <$> bz))
        end
    end.

End Bech32.

(** ** Concrete hosts and worlds, for evaluating the agent *)

Module sample.
Import Json types agent.

Definition lookup_env (env : list (string * string)) (name : string) : string :=
  match list_find (λ kv, kv.1 = name) env with
  | Some (_, kv) => kv.2
  | None => ""
  end.

(** The sample configuration of the agent's README. *)
Definition env_readme : list (string * string) :=
  [ ("SOVEREIGN_RPC", "tcp://localhost:26657");
    ("SOVEREIGN_GRPC", "localhost:9090");
    ("SOVEREIGN_CHAIN_ID", "sovereign-1");
    ("VAL_ADDR", "cosmosvaloper1...");
    ("RELAYER_KEY_PATH", "./relayer_key.pem");
    ("RELAYER_BIN", "/usr/local/bin/relayer");
    ("HEARTBEAT_PERIOD", "30s") ].

(** The README leaves the validator address as a placeholder that does
    not decode. [val_address] is the Bech32 encoding, under the prefix
    cosmosvaloper, of the twenty bytes 01 to 14; [env_valid] is the README
    configuration with this address. *)
Definition val_address : string :=
  "cosmosvaloper1qypqxpq9qcrsszg2pvxq6rs0zqg3yyc56kct20".

Definition env_valid : list (string * string) :=
  ("VAL_ADDR", val_address) :: filter (λ kv, kv.1 ≠ "VAL_ADDR") env_readme.

(** The same without [HEARTBEAT_PERIOD], and without [RELAYER_BIN]. *)
Definition env_no_period : list (string * string) :=
  filter (λ kv, kv.1 ≠ "HEARTBEAT_PERIOD") env_valid.

Definition env_no_relayer_bin : list (string * string) :=
  filter (λ kv, kv.1 ≠ "RELAYER_BIN") env_valid.

(** A configuration in which five settings are present but not usable (no
    URL, no port, a chain id with blanks, two paths to nothing), the
    validator address is valid and the period is absent; and the same with
    a period that is no duration. *)
Definition env_malformed : list (string * string) :=
  [ ("SOVEREIGN_RPC", "not a url");
    ("SOVEREIGN_GRPC", "localhost");
    ("SOVEREIGN_CHAIN_ID", "sovereign 1 ?");
    ("VAL_ADDR", val_address);
    ("RELAYER_KEY_PATH", "/no/such/key");
    ("RELAYER_BIN", "/no/such/relayer") ].

Definition env_malformed_period : list (string * string) :=
  env_malformed ++ [("HEARTBEAT_PERIOD", "soon")].

(** [time.ParseDuration] on the strings that occur here; like the library
    function it rejects the empty string. *)
Definition parse_duration (s : string) : result Z :=
  if decide (s = "30s") then Ok (30 * Second)%Z
  else if decide (s = "1m") then Ok (60 * Second)%Z
  else Err (errorString "time: invalid duration").

(** The SDK's decoder of validator addresses under its default prefix. *)
Definition decode_valoper (s : string) : result ValAddress :=
  Bech32.ValAddressFromBech32 "cosmosvaloper" s.

Definition host (env : list (string * string)) : Host :=
  {| os_Getenv := lookup_env env;
     time_ParseDuration := parse_duration;
     sdk_ValAddressFromBech32 := decode_valoper |}.

(** A world with valid key material, in which the node can be dialled
    when [reachable]. The keyring is the list of the names it holds; a
    transaction builder is the message with a flag that tells whether it is
    signed. [factory] is the world's [NewFactoryCLI]. *)
Definition world_with
    (factory : @ClientContext (list string) unit → option FlagSet
               → call (@Factory (list string) unit))
    (reachable : bool)
    : @World (list string) string (MsgHeartbeat * bool) unit :=
  {| tx_NewFactoryCLI := factory;
     keyring_New := λ _, Ok [];
     os_ReadFile := λ path,
       if decide (path = "./relayer_key.pem") then Ok "armored key"
       else Err (errorString "open: no such file or directory");
     kr_ImportPrivKey := λ kr uid _ _, Ok (uid :: kr);
     kr_Key := λ kr uid,
       if decide (uid ∈ kr) then Ok uid
       else Err (errorString "key not found");
     kr_Sign := λ _ _ payload,
       Ok (Some (reverse (String.list_byte_of_string payload)));
     key_GetAddress := λ uid, Some (String.list_byte_of_string uid);
     tx_BuildUnsignedTx := λ _ msg, Ok (msg, false);
     tx_Sign := λ _ _ txb _, Ok (txb.1, true);
     TxJSONEncoder := λ txb,
       Ok ("tx " +:+ hb_OriginHeightsJSON txb.1);
     TxEncoder := λ txb, Ok (hb_OriginHeightsJSON txb.1);
     client_NewClientFromNode := λ _,
       if reachable then Ok tt
       else Err (errorString "dial tcp: connection refused");
     ctx_BroadcastTx := λ _ _, Ok "A1B2C3" |}.

(** The world of the SDK: [NewFactoryCLI] dereferences the flag set, and
    panics on the nil one. *)
Definition sdk_world : bool
    → @World (list string) string (MsgHeartbeat * bool) unit :=
  world_with
    (λ clientCtx flagSet,
       match flagSet with
       | None =>
           Panics
             "runtime error: invalid memory address or nil pointer dereference"
       | Some _ =>
           Returns {| f_ctx := clientCtx; f_Gas := 0; f_Fees := "" |}
       end).

(** A world whose [NewFactoryCLI] also accepts the nil flag set, unlike the
    SDK's: the rest of [sendHeartbeat] can be run in it. *)
Definition world : bool
    → @World (list string) string (MsgHeartbeat * bool) unit :=
  world_with
    (λ clientCtx _,
       Returns {| f_ctx := clientCtx; f_Gas := 0; f_Fees := "" |}).

(** As [sdk_world], with a key file that cannot be read. *)
Definition sdk_world_no_key
    : @World (list string) string (MsgHeartbeat * bool) unit :=
  {| tx_NewFactoryCLI := tx_NewFactoryCLI (sdk_world true);
     keyring_New := keyring_New (sdk_world true);
     os_ReadFile := λ _, Err (errorString "open: permission denied");
     kr_ImportPrivKey := kr_ImportPrivKey (sdk_world true);
     kr_Key := kr_Key (sdk_world true);
     kr_Sign := kr_Sign (sdk_world true);
     key_GetAddress := key_GetAddress (sdk_world true);
     tx_BuildUnsignedTx := tx_BuildUnsignedTx (sdk_world true);
     tx_Sign := tx_Sign (sdk_world true);
     TxJSONEncoder := TxJSONEncoder (sdk_world true);
     TxEncoder := TxEncoder (sdk_world true);
     client_NewClientFromNode := client_NewClientFromNode (sdk_world true);
     ctx_BroadcastTx := ctx_BroadcastTx (sdk_world true) |}.

Definition config : Config := (readEnvConfig (host env_valid)).2.

(** The bytes of [val_address]. *)
Definition valAddr : ValAddress :=
  Some [ Byte.x01; Byte.x02; Byte.x03; Byte.x04; Byte.x05; Byte.x06;
         Byte.x07; Byte.x08; Byte.x09; Byte.x0a; Byte.x0b; Byte.x0c;
         Byte.x0d; Byte.x0e; Byte.x0f; Byte.x10; Byte.x11; Byte.x12;
         Byte.x13; Byte.x14 ].

(** A codec for the messages: addresses and byte strings by their length,
    and a route as an object. *)
Definition codec : Codec :=
  {| encValAddress := λ a, JScalar (pretty (N.of_nat (len a)));
     encAccAddress := λ a, JScalar (pretty (N.of_nat (len a)));
     encBytes := λ b, JScalar (pretty (N.of_nat (len b)));
     encUint64 := λ n, JScalar (quote_plain (pretty n));
     encString := λ s, JScalar (quote_plain s);
     encRoute := λ r,
       JObject [ ("origin", JScalar (quote_plain (Origin r)));
                 ("destination", JScalar (quote_plain (Destination r))) ];
     memberOrder := id |}.

Definition package : Package :=
  {| RouterKey := "duty"; ModuleCdc := codec; jsonQuote := quote_plain |}.

(** A report with a zero route, nil and empty proofs, and both addresses
    present. *)
Definition bare_report : MsgReportMissed :=
  NewMsgReportMissed {| Origin := ""; Destination := "" |} 0
    (Some [Byte.x01]) None (Some []) (Some [Byte.x02]).

(** The duty of the enforcement demo: message 1 from Sovereign to Light,
    created at height 100 with deadline 150, in each status. *)
Definition duty (s : registry.Status) : registry.Duty :=
  {| registry.route := {| Origin := "Sovereign"; Destination := "Light" |};
     registry.messageId := 1;
     registry.assignedValidator := valAddr;
     registry.createdHeight := 100;
     registry.deadlineHeight := 150;
     registry.status := s |}.

(** The duty is created and reported missed; later a fulfilment and a
    reset to pending are attempted. *)
Definition ops_report : list registry.Op :=
  [ registry.OpUpsert (duty registry.Pending);
    registry.OpUpsert (duty registry.Missed) ].

Definition ops_later : list registry.Op :=
  [ registry.OpUpsert (duty registry.Fulfilled);
    registry.OpGet {| Origin := "Sovereign"; Destination := "Light" |} 1;
    registry.OpUpsert (duty registry.Pending) ].

End sample.

(** ** queryDuties of the agent *)

Module agent_query.
Import types agent.

(** What [queryDuties] does on the network, in order. *)
Inductive QueryEvent :=
| GrpcDial (target : string)                 (* grpc.Dial *)
| DutiesRequest (validatorAddress : string)  (* queryClient.Duties *)
| GrpcClose.                                 (* grpcConn.Close *)

Section Query.

(** The gRPC connection and the [Duty] type of the module are opaque to
    the agent; the latter is declared outside [src]. *)
Context {ClientConn Duty : Type}.

(** The library calls of [queryDuties]. [ValAddress_String] is the
    [String] method of [sdk.ValAddress]. *)
Record QueryWorld := {
  grpc_Dial : string → result ClientConn;
  ValAddress_String : ValAddress → string;
  queryClient_Duties : ClientConn → string → result (list Duty);
}.

(** [defer f()]: the deferred call runs when the body returns, whatever
    it returns. *)
Definition deferred {A} (cleanup : list QueryEvent)
    (body : list QueryEvent * result A) : list QueryEvent * result A :=
  (body.1 ++ cleanup, body.2).

Definition queryDuties (q : QueryWorld) (config : Config)
    (valAddr : ValAddress) : list QueryEvent * result (list Duty) :=
  match grpc_Dial q (SovereignGRPC config) with
  | Err err =>
      ([GrpcDial (SovereignGRPC config)],
       Err (wrapped "failed to dial gRPC" err))
  | Ok grpcConn =>
      let '(t, r) :=
        deferred [GrpcClose]
          (let validatorAddress := ValAddress_String q valAddr in
           match queryClient_Duties q grpcConn validatorAddress with
           | Err err =>
               ([DutiesRequest validatorAddress],
                Err (wrapped "duty query failed" err))
           | Ok duties => ([DutiesRequest validatorAddress], Ok duties)
           end) in
      (GrpcDial (SovereignGRPC config) :: t, r)
  end.

End Query.

End agent_query.

(** ** Reading a sequence of events *)

Module observe.
Import agent.

Definition is_Log (ev : Event) : bool :=
  match ev with Log _ _ => true | _ => false end.

Definition is_Stdout (ev : Event) : bool :=
  match ev with Stdout _ => true | _ => false end.

Definition is_KeyringSign (ev : Event) : bool :=
  match ev with KeyringSign _ _ => true | _ => false end.

Definition is_BroadcastTx (ev : Event) : bool :=
  match ev with BroadcastTx _ => true | _ => false end.

(** The first log line of [sendHeartbeat]. *)
Definition is_heartbeat_start (ev : Event) : bool :=
  match ev with
  | Log format [] => String.eqb format "Building heartbeat transaction..."
  | _ => false
  end.

Definition count (p : Event → bool) (t : list Event) : nat :=
  length (List.filter p t).

(** The context strings under which [sendHeartbeat] returns the error of a
    library call. *)
Definition heartbeat_error_contexts : list string :=
  [ "failed to create keyring";
    "failed to read relayer key";
    "failed to import private key";
    "failed to get key from keyring";
    "failed to sign heartbeat data";
    "failed to build unsigned tx";
    "failed to sign tx";
    "failed to encode tx to JSON";
    "failed to create RPC client";
    "failed to encode tx to bytes";
    "broadcast failed" ].

End observe.

(** ** More concrete hosts *)

Module sample_more.
Import types agent agent_query.

(** The README configuration with a period of zero. *)
Definition env_zero_period : list (string * string) :=
  sample.env_no_period ++ [("HEARTBEAT_PERIOD", "0s")].

(** The README configuration without the gRPC endpoint and without the
    relayer binary. *)
Definition env_two_missing : list (string * string) :=
  filter (λ kv, kv.1 ≠ "SOVEREIGN_GRPC") sample.env_no_relayer_bin.

(** [sample.parse_duration], extended to the string 0s. *)
Definition parse_duration (s : string) : result Z :=
  if decide (s = "0s") then Ok 0%Z else sample.parse_duration s.

Definition host (env : list (string * string)) : Host :=
  {| os_Getenv := sample.lookup_env env;
     time_ParseDuration := parse_duration;
     sdk_ValAddressFromBech32 := sample.decode_valoper |}.

(** A node that answers the dial at the README's gRPC address and whose
    duty query fails unless [serving]; a connection is its target. *)
Definition query_world (serving : bool) : @QueryWorld string nat :=
  {| grpc_Dial := λ target,
       if decide (target = "localhost:9090") then Ok target
       else Err (errorString "connection refused");
     ValAddress_String := λ _, sample.val_address;
     queryClient_Duties := λ _ _,
       if serving then Ok [1; 2]
       else Err (errorString "rpc error: code = Unavailable") |}.

(** The events of a real run in which every call succeeds, before and
    after the broadcast. *)
Definition real_trace : list Event :=
  (sendHeartbeat Json.quote_plain (sample.world true) sample.config
     sample.valAddr false).1.

Definition before_broadcast : list Event := take 6 real_trace.

Definition after_broadcast : list Event := drop 7 real_trace.

End sample_more.

(** * Properties *)

Import Json types agent.

(** ** Canonical member order *)

Section member_order.
Context {A : Type}.
Implicit Types l : list (string * A).

#[local] Instance key_le_trans : Transitive (@key_le A).
Proof. intros x y z. unfold key_le. apply transitivity. Qed.

#[local] Instance key_le_total : Total (@key_le A).
Proof. intros x y. unfold key_le. apply total, _. Qed.

Lemma sort_members_Sorted l : Sorted key_le (sort_members l).
Proof. apply Sorted_merge_sort, _. Qed.

Lemma sort_members_Permutation l : sort_members l ≡ₚ l.
Proof. apply merge_sort_Permutation. Qed.

Lemma sort_members_keys_NoDup l : NoDup l.*1 → NoDup (sort_members l).*1.
Proof. intros Hnd. by rewrite sort_members_Permutation. Qed.

Lemma key_determines_value l k a b :
  NoDup l.*1 → (k, a) ∈ l → (k, b) ∈ l → a = b.
Proof.
  induction l as [|[k' c] l IH]; simpl; intros Hnd Ha Hb.
  { by apply elem_of_nil in Ha. }
  apply NoDup_cons in Hnd as [Hk Hnd].
  apply elem_of_cons in Ha as [Ha|Ha], Hb as [Hb|Hb].
  - congruence.
  - inversion Ha; subst. destruct Hk. apply list_elem_of_fmap. by exists (k', b).
  - inversion Hb; subst. destruct Hk. apply list_elem_of_fmap. by exists (k', a).
  - by apply IH.
Qed.

(** Two members with the same key coincide when keys are not repeated. *)
Lemma same_key_same_member l x y :
  NoDup l.*1 → x ∈ l → y ∈ l → key_le x y → key_le y x → x = y.
Proof.
  intros Hnd Hx Hy Hxy Hyx. destruct x as [k a], y as [k' b].
  unfold key_le in *; simpl in *.
  assert (k = k') as <- by (by apply (anti_symm String.le)).
  f_equal. by eapply key_determines_value.
Qed.

(** The sorted member list does not depend on the order of the input. *)
Lemma sort_members_canonical l1 l2 :
  NoDup l1.*1 → l1 ≡ₚ l2 → sort_members l1 = sort_members l2.
Proof.
  intros Hnd Hperm.
  apply (Sorted_unique_strong key_le); try apply sort_members_Sorted.
  - intros x y Hx Hy. rewrite sort_members_Permutation in Hx, Hy.
    rewrite <-Hperm in Hy. by apply (same_key_same_member l1).
  - by rewrite !sort_members_Permutation.
Qed.

(** On distinct keys the order is strict. *)
Lemma sort_members_strict l :
  NoDup l.*1 →
  StronglySorted (λ k k', String.le k k' ∧ k ≠ k') (sort_members l).*1.
Proof.
  intros Hnd. apply sort_members_keys_NoDup in Hnd.
  pose proof (Sorted_StronglySorted _ _ (sort_members_Sorted l)) as Hs.
  induction Hs as [|x xs Hs IH Hall]; simpl; [constructor|].
  apply NoDup_cons in Hnd as [Hx Hnd].
  constructor; [by apply IH|].
  apply Forall_fmap, Forall_forall. intros y Hy. split.
  - by apply (proj1 (Forall_forall _ _) Hall).
  - intros Heq. apply Hx, list_elem_of_fmap. by exists y.
Qed.

End member_order.

(** ** The messages of the duty module *)

Section messages.

Lemma Empty_iff_len (a : slice) : Empty a = true ↔ len a = 0.
Proof. unfold Empty. apply Nat.eqb_eq. Qed.

(** C4: for each of the four message types, [ValidateBasic] returns an
    error exactly when a required address is empty (the validator address
    of a registration or a heartbeat; the assigned validator or the signer
    of a report), the error wraps [ErrInvalidAddress], and otherwise the
    result is nil. *)
Theorem ValidateBasic_error_iff_empty_address :
  (∀ msg : MsgRegisterSidecars,
     (is_Some (ValidateBasic msg) ↔ len (rs_ValAddr msg) = 0)
     ∧ (ValidateBasic msg = None ↔ len (rs_ValAddr msg) ≠ 0)
     ∧ (∀ e, ValidateBasic msg = Some e →
             ∃ d, e = Wrap ErrInvalidAddress d))
  ∧ (∀ msg : MsgHeartbeat,
     (is_Some (ValidateBasic msg) ↔ len (hb_ValAddr msg) = 0)
     ∧ (ValidateBasic msg = None ↔ len (hb_ValAddr msg) ≠ 0)
     ∧ (∀ e, ValidateBasic msg = Some e →
             ∃ d, e = Wrap ErrInvalidAddress d))
  ∧ (∀ msg : MsgReportMissed,
     (is_Some (ValidateBasic msg)
        ↔ len (rm_AssignedVal msg) = 0 ∨ len (rm_Signer msg) = 0)
     ∧ (ValidateBasic msg = None
        ↔ len (rm_AssignedVal msg) ≠ 0 ∧ len (rm_Signer msg) ≠ 0)
     ∧ (∀ e, ValidateBasic msg = Some e →
             ∃ d, e = Wrap ErrInvalidAddress d))
  ∧ (∀ msg : MsgReportInvalid,
     (is_Some (ValidateBasic msg)
        ↔ len (ri_AssignedVal msg) = 0 ∨ len (ri_Signer msg) = 0)
     ∧ (ValidateBasic msg = None
        ↔ len (ri_AssignedVal msg) ≠ 0 ∧ len (ri_Signer msg) ≠ 0)
     ∧ (∀ e, ValidateBasic msg = Some e →
             ∃ d, e = Wrap ErrInvalidAddress d)).
Proof.
  repeat split; intros; simpl in *; unfold Empty in *;
    repeat match goal with
    | H : context [Nat.eqb ?n 0] |- _ => destruct (Nat.eqb_spec n 0)
    | |- context [Nat.eqb ?n 0] => destruct (Nat.eqb_spec n 0)
    | H : is_Some None |- _ => by apply is_Some_None in H
    | H : _ ∨ _ |- _ => destruct H
    | H : _ ∧ _ |- _ => destruct H
    end;
    simplify_eq; eauto; try tauto; try done.
Qed.

(** C5: for a registration and a heartbeat [GetSigners] is the single
    account address made of the bytes of the message's validator address;
    for the two reports it is the single [Signer] field, whatever the
    assigned validator is. *)
Theorem GetSigners_single_signer :
  (∀ msg : MsgRegisterSidecars,
     GetSigners msg = [AccAddress_of (rs_ValAddr msg)]
     ∧ AccAddress_of (rs_ValAddr msg) = rs_ValAddr msg)
  ∧ (∀ msg : MsgHeartbeat,
     GetSigners msg = [AccAddress_of (hb_ValAddr msg)]
     ∧ AccAddress_of (hb_ValAddr msg) = hb_ValAddr msg)
  ∧ (∀ route msgID assignedVal originProof destProof signer,
     GetSigners (NewMsgReportMissed route msgID assignedVal originProof
                   destProof signer) = [signer])
  ∧ (∀ route msgID assignedVal destFailureProof signer,
     GetSigners (NewMsgReportInvalid route msgID assignedVal
                   destFailureProof signer) = [signer])
  ∧ (∀ msg : MsgReportMissed, GetSigners msg = [rm_Signer msg])
  ∧ (∀ msg : MsgReportInvalid, GetSigners msg = [ri_Signer msg]).
Proof. repeat split. Qed.

(** C9: [ValidateBasic] reads the address fields only. Replacing every
    other field by any value leaves its result unchanged, and a message
    whose addresses are not empty passes whatever the other fields hold:
    nil or empty keys, an empty heights string, a nil signature, nil or
    empty proofs, a zero route. *)
Theorem ValidateBasic_reads_addresses_only :
  (∀ valAddr k1 k2 k1' k2',
     ValidateBasic (NewMsgRegisterSidecars valAddr k1 k2)
     = ValidateBasic (NewMsgRegisterSidecars valAddr k1' k2'))
  ∧ (∀ valAddr heights sig heights' sig',
     ValidateBasic (NewMsgHeartbeat valAddr heights sig)
     = ValidateBasic (NewMsgHeartbeat valAddr heights' sig'))
  ∧ (∀ assignedVal signer route id p1 p2 route' id' p1' p2',
     ValidateBasic (NewMsgReportMissed route id assignedVal p1 p2 signer)
     = ValidateBasic
         (NewMsgReportMissed route' id' assignedVal p1' p2' signer))
  ∧ (∀ assignedVal signer route id p route' id' p',
     ValidateBasic (NewMsgReportInvalid route id assignedVal p signer)
     = ValidateBasic (NewMsgReportInvalid route' id' assignedVal p' signer))
  ∧ (∀ valAddr k1 k2,
     len valAddr ≠ 0 →
     ValidateBasic (NewMsgRegisterSidecars valAddr k1 k2) = None)
  ∧ (∀ valAddr heights sig,
     len valAddr ≠ 0 →
     ValidateBasic (NewMsgHeartbeat valAddr heights sig) = None)
  ∧ (∀ assignedVal signer route id p1 p2,
     len assignedVal ≠ 0 → len signer ≠ 0 →
     ValidateBasic (NewMsgReportMissed route id assignedVal p1 p2 signer)
     = None)
  ∧ (∀ assignedVal signer route id p,
     len assignedVal ≠ 0 → len signer ≠ 0 →
     ValidateBasic (NewMsgReportInvalid route id assignedVal p signer)
     = None).
Proof.
  repeat split; intros; simpl; unfold Empty;
    repeat match goal with
    | |- context [Nat.eqb ?n 0] => destruct (Nat.eqb_spec n 0)
    end; done.
Qed.

End messages.

(** ** Sign bytes *)

Section sign_bytes.

Lemma sort_keys_members_keys (l : list (string * json)) :
  ((λ kv, match kv with (k, v) => (k, sort_keys v) end) <$> l).*1 = l.*1.
Proof. induction l as [|[k v] l IH]; simpl; by f_equal. Qed.

(** After [sdk.MustSortJSON] an object reads the same whatever the order
    in which its members were written. *)
Lemma MustSortJSON_member_order quote (l1 l2 : list (string * json)) :
  NoDup l1.*1 → l1 ≡ₚ l2 →
  MustSortJSON quote (JObject l1) = MustSortJSON quote (JObject l2).
Proof.
  intros Hnd Hperm. unfold MustSortJSON. simpl. do 4 f_equal.
  apply sort_members_canonical.
  - by rewrite sort_keys_members_keys.
  - by rewrite Hperm.
Qed.

Lemma members_RegisterSidecars_keys c msg :
  NoDup (members_RegisterSidecars c msg).*1.
Proof. simpl. apply (bool_decide_unpack _). by vm_compute. Qed.

Lemma members_Heartbeat_keys c msg : NoDup (members_Heartbeat c msg).*1.
Proof. simpl. apply (bool_decide_unpack _). by vm_compute. Qed.

Lemma members_ReportMissed_keys c msg :
  NoDup (members_ReportMissed c msg).*1.
Proof. simpl. apply (bool_decide_unpack _). by vm_compute. Qed.

Lemma members_ReportInvalid_keys c msg :
  NoDup (members_ReportInvalid c msg).*1.
Proof. simpl. apply (bool_decide_unpack _). by vm_compute. Qed.

Lemma sign_bytes_member_order quote order1 order2
    (members : list (string * json)) :
  (∀ l, order1 l ≡ₚ l) → (∀ l, order2 l ≡ₚ l) → NoDup members.*1 →
  MustSortJSON quote (JObject (order1 members))
  = MustSortJSON quote (JObject (order2 members)).
Proof.
  intros H1 H2 Hnd. apply MustSortJSON_member_order.
  - by rewrite H1.
  - by rewrite H1, H2.
Qed.

(** C10: [GetSignBytes] of each of the four message types is a function of
    the message alone. Two invocations on the same message return the same
    bytes even when the codec writes the members of the struct in a
    different order each time, because the encoding goes through
    [sdk.MustSortJSON], which orders them by key. *)
Theorem GetSignBytes_deterministic (pkg : Package)
    (order1 order2 : list (string * json) → list (string * json)) :
  (∀ l, order1 l ≡ₚ l) →
  (∀ l, order2 l ≡ₚ l) →
  (∀ msg : MsgRegisterSidecars,
     GetSignBytes (withMemberOrder pkg order1) msg
     = GetSignBytes (withMemberOrder pkg order2) msg)
  ∧ (∀ msg : MsgHeartbeat,
     GetSignBytes (withMemberOrder pkg order1) msg
     = GetSignBytes (withMemberOrder pkg order2) msg)
  ∧ (∀ msg : MsgReportMissed,
     GetSignBytes (withMemberOrder pkg order1) msg
     = GetSignBytes (withMemberOrder pkg order2) msg)
  ∧ (∀ msg : MsgReportInvalid,
     GetSignBytes (withMemberOrder pkg order1) msg
     = GetSignBytes (withMemberOrder pkg order2) msg).
Proof.
  intros H1 H2. repeat split; intros msg;
    apply sign_bytes_member_order; auto using members_RegisterSidecars_keys,
      members_Heartbeat_keys, members_ReportMissed_keys,
      members_ReportInvalid_keys.
Qed.

End sign_bytes.

(** ** The heartbeat *)

(** Decide the next library call of a heartbeat either way. *)
Ltac next_call :=
  match goal with
  | |- context [try ?r _] => destruct r eqn:?; simpl
  | |- context [calling ?c] => destruct c eqn:?; simpl
  end.

Ltac all_calls :=
  unfold sendHeartbeat, sendHeartbeatOver, json_Marshal; simpl;
  repeat next_call.

Section heights.
Context (quote : string → string).
Implicit Types (h : gmap string N).

Lemma heights_members_keys h :
  (heights_members h).*1 = (sort_members (map_to_list h)).*1.
Proof.
  unfold heights_members. rewrite <-list_fmap_compose.
  by apply list_fmap_ext.
Qed.

(** The keys of the encoded map ascend strictly. *)
Lemma heights_members_sorted h :
  StronglySorted (λ k k', String.le k k' ∧ k ≠ k') (heights_members h).*1.
Proof.
  rewrite heights_members_keys.
  apply sort_members_strict, NoDup_fst_map_to_list.
Qed.

(** The encoded map has one member per entry of the map and no other. *)
Lemma heights_members_entries h k (n : N) :
  (k, JScalar (pretty n)) ∈ heights_members h ↔ h !! k = Some n.
Proof.
  unfold heights_members. rewrite list_elem_of_fmap. split.
  - intros [[k' n'] [Heq Hin]]. simpl in Heq. inversion Heq; subst.
    rewrite sort_members_Permutation in Hin.
    apply elem_of_map_to_list in Hin.
    by match goal with H : pretty _ = pretty _ |- _ => apply (inj _) in H; subst end.
  - intros Hk. exists (k, n). split; [done|].
    rewrite sort_members_Permutation. by apply elem_of_map_to_list.
Qed.

(** The encoding does not depend on the order in which a map was filled. *)
Lemma Marshal_heights_insertion_order (l1 l2 : list (string * N)) :
  NoDup l1.*1 → l1 ≡ₚ l2 →
  Marshal_heights quote (list_to_map l1)
  = Marshal_heights quote (list_to_map l2).
Proof. intros Hnd Hperm. f_equal. by apply list_to_map_proper. Qed.

Lemma Marshal_heights_ext h1 h2 :
  (∀ k, h1 !! k = h2 !! k) →
  Marshal_heights quote h1 = Marshal_heights quote h2.
Proof. intros Heq. f_equal. by apply map_eq. Qed.

(** Nor on the order in which the entries of the map are visited: sorting
    any arrangement of them gives the bytes of [Marshal_heights]. *)
Lemma Marshal_heights_iteration_order h (l : list (string * N)) :
  l ≡ₚ map_to_list h →
  render quote
    (JObject ((λ kv, (kv.1, JScalar (pretty kv.2))) <$> sort_members l))
  = Marshal_heights quote h.
Proof.
  intros Hperm. unfold Marshal_heights, heights_members. do 3 f_equal.
  apply sort_members_canonical; [|done].
  rewrite Hperm. apply NoDup_fst_map_to_list.
Qed.

End heights.

Section heartbeat.
Context {Keyring KeyRecord TxBuilder RPCClient : Type}.
Context (quote : string → string).
Abbreviation World := (@World Keyring KeyRecord TxBuilder RPCClient).
Implicit Types (w : World) (config : Config) (valAddr : ValAddress).
Implicit Types (h : gmap string N) (dryRun : bool).

Lemma dry_run_trace_has_no_broadcast h w config valAddr :
  Forall (λ ev, is_broadcast ev = false)
    (sendHeartbeatOver quote h w config valAddr true).1.
Proof. all_calls; repeat constructor. Qed.

Lemma heartbeat_signed_payloads h w config valAddr dryRun :
  Forall (λ p, p = Marshal_heights quote h)
    (signed_payloads (sendHeartbeatOver quote h w config valAddr dryRun).1).
Proof. all_calls; destruct dryRun; all_calls; repeat constructor. Qed.

Lemma heartbeat_built_messages h w config valAddr dryRun :
  Forall (λ msg,
            hb_ValAddr msg = valAddr
            ∧ hb_OriginHeightsJSON msg = Marshal_heights quote h
            ∧ ∃ kr, kr_Sign w kr "relayer" (Marshal_heights quote h)
                    = Ok (hb_Sig msg))
    (built_messages (sendHeartbeatOver quote h w config valAddr dryRun).1).
Proof.
  all_calls; destruct dryRun; all_calls; repeat constructor; simpl; eauto.
Qed.

(** With the key material in place, the heights are handed to the keyring
    for signing, once. *)
Lemma heartbeat_signs_once h w config valAddr dryRun
    kr keyBytes kr' relayerKey :
  keyring_New w "duty-agent" = Ok kr →
  os_ReadFile w (RelayerKeyPath config) = Ok keyBytes →
  kr_ImportPrivKey w kr "relayer" keyBytes "password" = Ok kr' →
  kr_Key w kr' "relayer" = Ok relayerKey →
  signed_payloads (sendHeartbeatOver quote h w config valAddr dryRun).1
  = [Marshal_heights quote h].
Proof.
  intros H1 H2 H3 H4.
  unfold sendHeartbeatOver, json_Marshal. simpl.
  rewrite H1; simpl. rewrite H2; simpl. rewrite H3; simpl.
  rewrite H4; simpl. repeat next_call; destruct dryRun; repeat next_call;
    reflexivity.
Qed.

(** When the keyring has signed and the factory is returned, the message
    that goes into the transaction carries the encoding and its
    signature. *)
Lemma heartbeat_builds_signed_message h w config valAddr dryRun
    kr keyBytes kr' relayerKey sig txf :
  keyring_New w "duty-agent" = Ok kr →
  os_ReadFile w (RelayerKeyPath config) = Ok keyBytes →
  kr_ImportPrivKey w kr "relayer" keyBytes "password" = Ok kr' →
  kr_Key w kr' "relayer" = Ok relayerKey →
  kr_Sign w kr' "relayer" (Marshal_heights quote h) = Ok sig →
  tx_NewFactoryCLI w (heartbeatContext w config kr' relayerKey) None
  = Returns txf →
  built_messages (sendHeartbeatOver quote h w config valAddr dryRun).1
  = [NewMsgHeartbeat valAddr (Marshal_heights quote h) sig].
Proof.
  intros H1 H2 H3 H4 H5 H6.
  unfold sendHeartbeatOver, json_Marshal. simpl.
  rewrite H1; simpl. rewrite H2; simpl. rewrite H3; simpl.
  rewrite H4; simpl. rewrite H5; simpl. rewrite H6; simpl.
  repeat next_call; destruct dryRun; repeat next_call; reflexivity.
Qed.

(** When the keyring has signed and the factory call panics, the heartbeat
    ends there, in a dry run as in a real one. *)
Lemma heartbeat_panics_at_factory h w config valAddr dryRun
    kr keyBytes kr' relayerKey sig reason :
  keyring_New w "duty-agent" = Ok kr →
  os_ReadFile w (RelayerKeyPath config) = Ok keyBytes →
  kr_ImportPrivKey w kr "relayer" keyBytes "password" = Ok kr' →
  kr_Key w kr' "relayer" = Ok relayerKey →
  kr_Sign w kr' "relayer" (Marshal_heights quote h) = Ok sig →
  tx_NewFactoryCLI w (heartbeatContext w config kr' relayerKey) None
  = Panics reason →
  sendHeartbeatOver quote h w config valAddr dryRun
  = ([ Log "Building heartbeat transaction..." [];
       ReadFile (RelayerKeyPath config);
       KeyringSign "relayer" (Marshal_heights quote h) ],
     Panic reason).
Proof.
  intros H1 H2 H3 H4 H5 H6.
  unfold sendHeartbeatOver, json_Marshal. simpl.
  rewrite H1; simpl. rewrite H2; simpl. rewrite H3; simpl.
  rewrite H4; simpl. rewrite H5; simpl. by rewrite H6.
Qed.

(** C6: with the key material in place, what [sendHeartbeat] hands to the
    keyring for signing is the JSON encoding of the [originHeights] map,
    once, under the relayer key; the message it puts into the transaction
    carries that encoding and the signature the keyring returned for it.
    The encoding is canonical: its keys ascend strictly, it has exactly the
    entries of the map, and it is the same in whichever order the entries
    of the map are visited, so that two heartbeats over equal maps are
    signed over the same bytes. *)
Theorem heartbeat_signs_canonical_heights :
  (∀ h w config valAddr dryRun kr keyBytes kr' relayerKey,
     keyring_New w "duty-agent" = Ok kr →
     os_ReadFile w (RelayerKeyPath config) = Ok keyBytes →
     kr_ImportPrivKey w kr "relayer" keyBytes "password" = Ok kr' →
     kr_Key w kr' "relayer" = Ok relayerKey →
     let t := (sendHeartbeatOver quote h w config valAddr dryRun).1 in
     signed_payloads t = [Marshal_heights quote h]
     ∧ KeyringSign "relayer" (Marshal_heights quote h) ∈ t
     ∧ ∀ sig txf,
         kr_Sign w kr' "relayer" (Marshal_heights quote h) = Ok sig →
         tx_NewFactoryCLI w (heartbeatContext w config kr' relayerKey) None
         = Returns txf →
         built_messages t
         = [NewMsgHeartbeat valAddr (Marshal_heights quote h) sig])
  ∧ (∀ h w config valAddr dryRun,
       let t := (sendHeartbeatOver quote h w config valAddr dryRun).1 in
       Forall (λ p, p = Marshal_heights quote h) (signed_payloads t)
       ∧ Forall (λ msg,
                   hb_OriginHeightsJSON msg = Marshal_heights quote h
                   ∧ ∃ kr, kr_Sign w kr "relayer" (Marshal_heights quote h)
                           = Ok (hb_Sig msg))
           (built_messages t))
  ∧ (∀ w config valAddr dryRun,
       sendHeartbeat quote w config valAddr dryRun
       = sendHeartbeatOver quote originHeights w config valAddr dryRun)
  ∧ (∀ h,
       StronglySorted (λ k k', String.le k k' ∧ k ≠ k')
         (heights_members h).*1
       ∧ (∀ k (n : N),
            (k, JScalar (pretty n)) ∈ heights_members h ↔ h !! k = Some n)
       ∧ ∀ l : list (string * N),
           l ≡ₚ map_to_list h →
           render quote
             (JObject
                ((λ kv, (kv.1, JScalar (pretty kv.2))) <$> sort_members l))
           = Marshal_heights quote h)
  ∧ (∀ h1 h2 w1 w2 config1 config2 valAddr1 valAddr2 dryRun1 dryRun2 p1 p2,
       (∀ k, h1 !! k = h2 !! k) →
       p1 ∈ signed_payloads
              (sendHeartbeatOver quote h1 w1 config1 valAddr1 dryRun1).1 →
       p2 ∈ signed_payloads
              (sendHeartbeatOver quote h2 w2 config2 valAddr2 dryRun2).1 →
       p1 = p2).
Proof.
  split; [|split; [|split; [|split]]].
  - intros h w config valAddr dryRun kr keyBytes kr' relayerKey H1 H2 H3 H4 t.
    assert (signed_payloads t = [Marshal_heights quote h]) as Hsigned
      by (by eapply heartbeat_signs_once).
    split; [done|]. split.
    + assert (Marshal_heights quote h ∈ signed_payloads t) as Hin
        by (rewrite Hsigned; apply list_elem_of_here).
      unfold signed_payloads in Hin. apply list_elem_of_omap in Hin.
      destruct Hin as (ev & Hev & Hp).
      destruct ev; simplify_eq.
      revert Hev. subst t. clear.
      all_calls; destruct dryRun; all_calls; intros Hev;
        repeat (apply elem_of_cons in Hev as [Hev|Hev];
                [by (discriminate || (simplify_eq; apply list_elem_of_In;
                                      simpl; tauto))|]);
        by apply elem_of_nil in Hev.
    + intros sig txf H5 H6. by eapply heartbeat_builds_signed_message.
  - intros h w config valAddr dryRun t. split.
    + apply heartbeat_signed_payloads.
    + eapply Forall_impl; [apply heartbeat_built_messages|].
      intros msg (_ & Hjson & Hsig). by split.
  - done.
  - intros h. split; [apply heights_members_sorted|]. split.
    + intros k n. apply heights_members_entries.
    + intros l. apply Marshal_heights_iteration_order.
  - intros h1 h2 w1 w2 config1 config2 valAddr1 valAddr2 dryRun1 dryRun2
      p1 p2 Heq Hp1 Hp2.
    pose proof (heartbeat_signed_payloads h1 w1 config1 valAddr1 dryRun1)
      as F1.
    pose proof (heartbeat_signed_payloads h2 w2 config2 valAddr2 dryRun2)
      as F2.
    rewrite Forall_forall in F1, F2.
    rewrite (F1 p1 Hp1), (F2 p2 Hp2). by apply Marshal_heights_ext.
Qed.

(** C7 (what the code does): the heights of every heartbeat are those of
    the map literal in [sendHeartbeat], whatever the outside world answers
    during the tick; no call of the function reads a chain height. *)
Theorem heartbeat_heights_are_the_literal w config valAddr dryRun :
  Forall (λ msg,
            hb_OriginHeightsJSON msg
            = Marshal_heights quote
                (<["other-2" := 456%N]> (<["light-1" := 123%N]> ∅)))
    (built_messages (sendHeartbeat quote w config valAddr dryRun).1).
Proof.
  eapply Forall_impl; [apply heartbeat_built_messages|].
  by intros msg (_ & Hjson & _).
Qed.

End heartbeat.

(** ** Startup and the ticker loop *)

Section process.
Context {Keyring KeyRecord TxBuilder RPCClient : Type}.
Context (quote : string → string).
Abbreviation World' := (@World Keyring KeyRecord TxBuilder RPCClient).
Implicit Types (w : World') (ws before after : list World').
Implicit Types (h : Host) (config : Config) (valAddr : ValAddress).

Lemma tick_of_error config valAddr dryRun w t err :
  sendHeartbeat quote w config valAddr dryRun = (t, Done (Err err)) →
  tick quote config valAddr dryRun w
  = ([ Log "Ticker event: checking for duties and sending heartbeat..." [];
       Log "Querying for duty assignments..." [] ]
     ++ t ++ [Log "Error sending heartbeat: %v" [AErr err]],
     Done (Ok tt)).
Proof. intros Hsend. unfold tick. simpl. by rewrite Hsend. Qed.

Lemma tick_of_panic config valAddr dryRun w t reason :
  sendHeartbeat quote w config valAddr dryRun = (t, Panic reason) →
  tick quote config valAddr dryRun w
  = ([ Log "Ticker event: checking for duties and sending heartbeat..." [];
       Log "Querying for duty assignments..." [] ] ++ t,
     Panic reason).
Proof. intros Hsend. unfold tick. simpl. by rewrite Hsend. Qed.

Lemma loop_cons_alive config valAddr dryRun w ws t r :
  tick quote config valAddr dryRun w = (t, Done r) →
  loop quote config valAddr dryRun (w :: ws)
  = (t ++ (loop quote config valAddr dryRun ws).1,
     (loop quote config valAddr dryRun ws).2).
Proof.
  intros Htick. simpl. rewrite Htick.
  by destruct (loop quote config valAddr dryRun ws).
Qed.

Lemma loop_cons_dead config valAddr dryRun w ws t reason :
  tick quote config valAddr dryRun w = (t, Panic reason) →
  loop quote config valAddr dryRun (w :: ws) = (t, Panicked reason).
Proof. intros Htick. simpl. by rewrite Htick. Qed.

(** While the process is alive, what the later ticks do is appended. *)
Lemma loop_app_alive config valAddr dryRun before after :
  (loop quote config valAddr dryRun before).2 = Waiting →
  loop quote config valAddr dryRun (before ++ after)
  = ((loop quote config valAddr dryRun before).1
       ++ (loop quote config valAddr dryRun after).1,
     (loop quote config valAddr dryRun after).2).
Proof.
  induction before as [|w before IH]; intros Halive.
  - simpl. by destruct (loop quote config valAddr dryRun after).
  - rewrite <-app_comm_cons.
    destruct (tick quote config valAddr dryRun w) as [t [r|reason]] eqn:Ht.
    + rewrite (loop_cons_alive _ _ _ _ _ _ _ Ht) in Halive.
      rewrite !(loop_cons_alive _ _ _ _ _ _ _ Ht). cbn [fst snd] in *.
      rewrite IH by done. cbn [fst snd]. by rewrite app_assoc.
    + rewrite (loop_cons_dead _ _ _ _ _ _ _ Ht) in Halive. discriminate.
Qed.

(** Past startup validation, [main] is the startup log followed by the
    loop, unless the ticker cannot be created. *)
Lemma main_past_validation dryRun h ws valAddr :
  let config := (readEnvConfig h).2 in
  validateConfig config = None →
  sdk_ValAddressFromBech32 h (ValAddr config) = Ok valAddr →
  (0 < HeartbeatPeriod config)%Z →
  main quote dryRun h ws
  = ((readEnvConfig h).1
       ++ [ Log "Starting duty agent for validator %s" [AStr (ValAddr config)];
            Log "Heartbeat period: %s" [ADuration (HeartbeatPeriod config)] ]
       ++ (loop quote config valAddr dryRun ws).1,
     (loop quote config valAddr dryRun ws).2).
Proof.
  intros config Hvalid Haddr Hperiod. unfold main.
  destruct (readEnvConfig h) as [t0 c] eqn:Hread. simpl in config.
  subst config. rewrite Hvalid, Haddr.
  destruct (Z.leb_spec (HeartbeatPeriod c) 0) as [Hle|_]; [lia|].
  by destruct (loop quote c valAddr dryRun ws).
Qed.

(** C2 (what the code does): started with the dry-run flag and with valid
    settings and key material, the agent does not print the transaction.
    In the first tick [sendHeartbeat] signs the heights and then calls
    [tx.NewFactoryCLI] with a nil flag set, on which the SDK panics: the
    process ends there, with nothing built, nothing on standard output and
    no later tick. *)
Theorem dry_run_panics_before_printing h w ws valAddr
    kr keyBytes kr' relayerKey sig reason :
  let config := (readEnvConfig h).2 in
  let payload := Marshal_heights quote originHeights in
  validateConfig config = None →
  sdk_ValAddressFromBech32 h (ValAddr config) = Ok valAddr →
  (0 < HeartbeatPeriod config)%Z →
  keyring_New w "duty-agent" = Ok kr →
  os_ReadFile w (RelayerKeyPath config) = Ok keyBytes →
  kr_ImportPrivKey w kr "relayer" keyBytes "password" = Ok kr' →
  kr_Key w kr' "relayer" = Ok relayerKey →
  kr_Sign w kr' "relayer" payload = Ok sig →
  tx_NewFactoryCLI w (heartbeatContext w config kr' relayerKey) None
  = Panics reason →
  main quote true h (w :: ws)
  = ((readEnvConfig h).1
       ++ [ Log "Starting duty agent for validator %s" [AStr (ValAddr config)];
            Log "Heartbeat period: %s" [ADuration (HeartbeatPeriod config)];
            Log "Ticker event: checking for duties and sending heartbeat..." [];
            Log "Querying for duty assignments..." [];
            Log "Building heartbeat transaction..." [];
            ReadFile (RelayerKeyPath config);
            KeyringSign "relayer" payload ],
     Panicked reason)
  ∧ (∀ line, Stdout line ∉ (main quote true h (w :: ws)).1)
  ∧ built_messages (main quote true h (w :: ws)).1 = [].
Proof.
  intros config payload Hvalid Haddr Hperiod H1 H2 H3 H4 H5 H6.
  assert (main quote true h (w :: ws)
          = ((readEnvConfig h).1
               ++ [ Log "Starting duty agent for validator %s"
                        [AStr (ValAddr config)];
                    Log "Heartbeat period: %s"
                        [ADuration (HeartbeatPeriod config)];
                    Log "Ticker event: checking for duties and sending heartbeat..." [];
                    Log "Querying for duty assignments..." [];
                    Log "Building heartbeat transaction..." [];
                    ReadFile (RelayerKeyPath config);
                    KeyringSign "relayer" payload ],
             Panicked reason)) as Hmain.
  { rewrite (main_past_validation true h (w :: ws) valAddr Hvalid Haddr Hperiod).
    fold config.
    rewrite (loop_cons_dead config valAddr true w ws _ reason
               (tick_of_panic config valAddr true w _ reason
                  (heartbeat_panics_at_factory quote originHeights w config
                     valAddr true kr keyBytes kr' relayerKey sig reason
                     H1 H2 H3 H4 H5 H6))).
    reflexivity. }
  split; [done|]. rewrite Hmain. cbn [fst].
  assert (∀ ev, ev ∈ (readEnvConfig h).1 → ∃ f a, ev = Log f a) as Hlogs.
  { intros ev. unfold readEnvConfig.
    destruct (time_ParseDuration h (os_Getenv h "HEARTBEAT_PERIOD"));
      simpl; [by intros ?%elem_of_nil|].
    intros ->%list_elem_of_singleton. eauto. }
  split.
  - intros line [Hin|Hin]%elem_of_app.
    + apply Hlogs in Hin as (f & a & [=]).
    + repeat (apply elem_of_cons in Hin as [Hin|Hin]; [discriminate|]).
      by apply elem_of_nil in Hin.
  - unfold built_messages. rewrite omap_app.
    assert (omap (λ ev, match ev with
                        | BuildUnsignedTx m => Some m
                        | _ => None
                        end) (readEnvConfig h).1 = []) as ->; [|done].
    unfold readEnvConfig.
    by destruct (time_ParseDuration h (os_Getenv h "HEARTBEAT_PERIOD")).
Qed.


Lemma validateConfig_None config :
  validateConfig config = None
  ↔ SovereignRPC config ≠ "" ∧ SovereignGRPC config ≠ ""
    ∧ SovereignChainID config ≠ "" ∧ ValAddr config ≠ ""
    ∧ RelayerKeyPath config ≠ "" ∧ RelayerBin config ≠ "".
Proof.
  unfold validateConfig.
  destruct (String.eqb_spec (SovereignRPC config) "");
    [split; [done|tauto]|].
  destruct (String.eqb_spec (SovereignGRPC config) "");
    [split; [done|tauto]|].
  destruct (String.eqb_spec (SovereignChainID config) "");
    [split; [done|tauto]|].
  destruct (String.eqb_spec (ValAddr config) ""); [split; [done|tauto]|].
  destruct (String.eqb_spec (RelayerKeyPath config) "");
    [split; [done|tauto]|].
  destruct (String.eqb_spec (RelayerBin config) ""); [split; [done|tauto]|].
  tauto.
Qed.

Lemma validateConfig_missing config :
  SovereignRPC config = "" ∨ SovereignGRPC config = ""
  ∨ SovereignChainID config = "" ∨ ValAddr config = ""
  ∨ RelayerKeyPath config = "" ∨ RelayerBin config = "" →
  is_Some (validateConfig config).
Proof.
  intros Hmissing. destruct (validateConfig config) eqn:Hv; [by eexists|].
  apply validateConfig_None in Hv. tauto.
Qed.

Lemma main_configuration_error dryRun h ws err :
  validateConfig (readEnvConfig h).2 = Some err →
  main quote dryRun h ws
  = ((readEnvConfig h).1 ++ [Log "Configuration error: %v" [AErr err]],
     Exited 1).
Proof.
  intros Hv. unfold main. destruct (readEnvConfig h) as [t0 c].
  simpl in *. by rewrite Hv.
Qed.

Lemma main_invalid_address dryRun h ws err :
  validateConfig (readEnvConfig h).2 = None →
  sdk_ValAddressFromBech32 h (ValAddr (readEnvConfig h).2) = Err err →
  main quote dryRun h ws
  = ((readEnvConfig h).1 ++ [Log "Invalid validator address: %v" [AErr err]],
     Exited 1).
Proof.
  intros Hv Haddr. unfold main. destruct (readEnvConfig h) as [t0 c].
  simpl in *. by rewrite Hv, Haddr.
Qed.

Lemma readEnvConfig_period_default h err :
  time_ParseDuration h (os_Getenv h "HEARTBEAT_PERIOD") = Err err →
  (readEnvConfig h).1
  = [ Log "Invalid HEARTBEAT_PERIOD '%s', defaulting to 30s. Error: %v"
          [AStr (os_Getenv h "HEARTBEAT_PERIOD"); AErr err] ]
  ∧ HeartbeatPeriod (readEnvConfig h).2 = (30 * Second)%Z.
Proof. intros Hp. unfold readEnvConfig. by rewrite Hp. Qed.

Lemma readEnvConfig_period_parsed h d :
  time_ParseDuration h (os_Getenv h "HEARTBEAT_PERIOD") = Ok d →
  (readEnvConfig h).1 = [] ∧ HeartbeatPeriod (readEnvConfig h).2 = d.
Proof. intros Hp. unfold readEnvConfig. by rewrite Hp. Qed.

Lemma readEnvConfig_fields h :
  let config := (readEnvConfig h).2 in
  SovereignRPC config = os_Getenv h "SOVEREIGN_RPC"
  ∧ SovereignGRPC config = os_Getenv h "SOVEREIGN_GRPC"
  ∧ SovereignChainID config = os_Getenv h "SOVEREIGN_CHAIN_ID"
  ∧ ValAddr config = os_Getenv h "VAL_ADDR"
  ∧ RelayerKeyPath config = os_Getenv h "RELAYER_KEY_PATH"
  ∧ RelayerBin config = os_Getenv h "RELAYER_BIN".
Proof.
  unfold readEnvConfig.
  by destruct (time_ParseDuration h (os_Getenv h "HEARTBEAT_PERIOD")).
Qed.

(** C3, as the code has it: each of the six string settings is required,
    and when one of them is absent the process exits with status 1 during
    startup, before any tick; so it does when the validator address does
    not decode. Nothing else is checked at startup: with the six settings
    present, whatever they hold, and a validator address that decodes, the
    process goes on to the loop. The heartbeat period is not required: when
    it is absent or does not parse, the agent logs that and goes on with 30
    seconds. *)
Theorem startup_requires_six_settings dryRun h ws :
  let config := (readEnvConfig h).2 in
  let entered valAddr :=
    main quote dryRun h ws
    = ((readEnvConfig h).1
         ++ [ Log "Starting duty agent for validator %s"
                  [AStr (os_Getenv h "VAL_ADDR")];
              Log "Heartbeat period: %s"
                  [ADuration (HeartbeatPeriod config)] ]
         ++ (loop quote config valAddr dryRun ws).1,
       (loop quote config valAddr dryRun ws).2) in
  (os_Getenv h "SOVEREIGN_RPC" = "" ∨ os_Getenv h "SOVEREIGN_GRPC" = ""
   ∨ os_Getenv h "SOVEREIGN_CHAIN_ID" = "" ∨ os_Getenv h "VAL_ADDR" = ""
   ∨ os_Getenv h "RELAYER_KEY_PATH" = "" ∨ os_Getenv h "RELAYER_BIN" = "" →
   ∃ err,
     validateConfig config = Some err
     ∧ main quote dryRun h ws
       = ((readEnvConfig h).1 ++ [Log "Configuration error: %v" [AErr err]],
          Exited 1))
  ∧ (∀ err,
       validateConfig config = None →
       sdk_ValAddressFromBech32 h (os_Getenv h "VAL_ADDR") = Err err →
       main quote dryRun h ws
       = ((readEnvConfig h).1
            ++ [Log "Invalid validator address: %v" [AErr err]],
          Exited 1))
  ∧ (∀ valAddr d,
       os_Getenv h "SOVEREIGN_RPC" ≠ "" → os_Getenv h "SOVEREIGN_GRPC" ≠ "" →
       os_Getenv h "SOVEREIGN_CHAIN_ID" ≠ "" → os_Getenv h "VAL_ADDR" ≠ "" →
       os_Getenv h "RELAYER_KEY_PATH" ≠ "" →
       os_Getenv h "RELAYER_BIN" ≠ "" →
       sdk_ValAddressFromBech32 h (os_Getenv h "VAL_ADDR") = Ok valAddr →
       time_ParseDuration h (os_Getenv h "HEARTBEAT_PERIOD") = Ok d →
       (0 < d)%Z →
       HeartbeatPeriod config = d ∧ entered valAddr)
  ∧ (∀ err,
       time_ParseDuration h (os_Getenv h "HEARTBEAT_PERIOD") = Err err →
       (readEnvConfig h).1
       = [ Log "Invalid HEARTBEAT_PERIOD '%s', defaulting to 30s. Error: %v"
               [AStr (os_Getenv h "HEARTBEAT_PERIOD"); AErr err] ]
       ∧ HeartbeatPeriod config = (30 * Second)%Z
       ∧ ∀ valAddr,
           validateConfig config = None →
           sdk_ValAddressFromBech32 h (os_Getenv h "VAL_ADDR") = Ok valAddr →
           entered valAddr).
Proof.
  intros config entered. subst entered. cbv beta.
  destruct (readEnvConfig_fields h) as (Hrpc & Hgrpc & Hid & Hval & Hkey & Hbin).
  fold config in Hrpc, Hgrpc, Hid, Hval, Hkey, Hbin.
  split; [|split; [|split]].
  - intros Hmissing.
    destruct (validateConfig_missing config) as [err Herr].
    { by rewrite Hrpc, Hgrpc, Hid, Hval, Hkey, Hbin. }
    exists err. split; [done|]. by apply main_configuration_error.
  - intros err Hv Haddr. apply main_invalid_address; [done|].
    fold config. by rewrite Hval.
  - intros valAddr d N1 N2 N3 N4 N5 N6 Haddr Hparse Hd.
    destruct (readEnvConfig_period_parsed h d Hparse) as [_ Hperiod].
    split; [done|]. rewrite <-Hval.
    apply (main_past_validation dryRun h ws valAddr).
    + apply validateConfig_None. unfold config in *.
      by rewrite Hrpc, Hgrpc, Hid, Hval, Hkey, Hbin.
    + unfold config in *. by rewrite Hval.
    + by rewrite Hperiod.
  - intros err Hparse.
    destruct (readEnvConfig_period_default h err Hparse) as [Hlog Hperiod].
    split; [done|]. split; [done|].
    intros valAddr Hv Haddr. rewrite <-Hval.
    apply (main_past_validation dryRun h ws valAddr); [done| |].
    + unfold config in *. by rewrite Hval.
    + rewrite Hperiod. by compute.
Qed.

End process.

(** ** The Duty Registry *)

Section duty_registry.
Import registry.
Implicit Types (reg : Registry) (d old : Duty) (op : Op) (ops : list Op).
Implicit Types (k : string * string * N).

Lemma terminal_not_Pending (s : Status) : terminal s = true ↔ s ≠ Pending.
Proof. by destruct s. Qed.

Lemma upsert_terminal_rejected reg d old :
  reg !! key_of d = Some old → terminal (status old) = true →
  upsert d reg = (reg, Rejected).
Proof. intros Hold Hterm. unfold upsert. by rewrite Hold, Hterm. Qed.

Lemma upsert_other_key reg d k :
  key_of d ≠ k → (upsert d reg).1 !! k = reg !! k.
Proof.
  intros Hne. unfold upsert.
  destruct (reg !! key_of d) as [old|]; [destruct (terminal (status old))|];
    simpl; by rewrite ?lookup_insert_ne.
Qed.

Lemma upsert_same_key reg d :
  (upsert d reg).1 !! key_of d
  = match reg !! key_of d with
    | Some old => if terminal (status old) then Some old else Some d
    | None => Some d
    end.
Proof.
  unfold upsert.
  destruct (reg !! key_of d) as [old|] eqn:Hold;
    [destruct (terminal (status old))|]; simpl;
    by rewrite ?lookup_insert_eq.
Qed.

(** One operation leaves a record with a terminal status as it is. *)
Lemma apply_keeps_terminal reg op k d :
  reg !! k = Some d → terminal (status d) = true →
  apply reg op !! k = Some d.
Proof.
  intros Hk Hterm. destruct op as [| |d']; simpl; [done..|].
  destruct (decide (key_of d' = k)) as [<-|Hne].
  - by rewrite upsert_same_key, Hk, Hterm.
  - by rewrite upsert_other_key.
Qed.

Lemma run_keeps_terminal ops reg k d :
  reg !! k = Some d → terminal (status d) = true →
  run ops reg !! k = Some d.
Proof.
  revert reg. induction ops as [|op ops IH]; intros reg Hk Hterm; [done|].
  apply IH; [|done]. by apply apply_keeps_terminal.
Qed.

Lemma run_app ops1 ops2 reg : run (ops1 ++ ops2) reg = run ops2 (run ops1 reg).
Proof. apply foldl_app. Qed.

(** One operation changes a status only from [Pending] to a terminal one. *)
Lemma apply_transition reg op k d d' :
  reg !! k = Some d → apply reg op !! k = Some d' →
  status d ≠ status d' →
  status d = Pending ∧ status d' ∈ [Fulfilled; Missed; Invalid].
Proof.
  intros Hk Hk' Hchange.
  destruct (terminal (status d)) eqn:Hterm.
  - rewrite (apply_keeps_terminal reg op k d Hk Hterm) in Hk'. congruence.
  - destruct (status d) eqn:Hs; try discriminate. split; [done|].
    destruct (status d'); [done|set_solver..].
Qed.

(** Nothing removes a record. *)
Lemma apply_keeps_record reg op k d :
  reg !! k = Some d → is_Some (apply reg op !! k).
Proof.
  intros Hk. destruct op as [| |d']; simpl; [by eexists..|].
  destruct (decide (key_of d' = k)) as [<-|Hne].
  - rewrite upsert_same_key, Hk. destruct (terminal (status d)); by eexists.
  - rewrite upsert_other_key by done. by eexists.
Qed.

(** C1: in any sequence of registry operations, once the record under a
    key has a status other than [Pending], the record under that key is the
    same after every further operation; an upsert under that key is
    rejected and leaves the registry as it is; and the only changes of
    status that one operation can make are from [Pending] to [Fulfilled],
    [Missed] or [Invalid]. *)
Theorem terminal_status_is_final reg ops1 ops2 k d :
  run ops1 reg !! k = Some d →
  status d ≠ Pending →
  run (ops1 ++ ops2) reg !! k = Some d
  ∧ (∀ d', key_of d' = k →
           upsert d' (run ops1 reg) = (run ops1 reg, Rejected))
  ∧ (∀ reg0 op k0 d0 d1,
       reg0 !! k0 = Some d0 → apply reg0 op !! k0 = Some d1 →
       status d0 ≠ status d1 →
       status d0 = Pending ∧ status d1 ∈ [Fulfilled; Missed; Invalid]).
Proof.
  intros Hk Hterm. apply terminal_not_Pending in Hterm.
  split; [|split].
  - rewrite run_app. by apply run_keeps_terminal.
  - intros d' <-. by eapply upsert_terminal_rejected.
  - apply apply_transition.
Qed.

End duty_registry.

(** ** The theorems at concrete inputs *)

Section concrete.
Import registry.

Example ValidateBasic_nil_address :
  ValidateBasic (NewMsgHeartbeat None "{}" (Some [Byte.x01]))
  = Some (Wrap ErrInvalidAddress "validator address cannot be empty").
Proof. reflexivity. Qed.

Example ValidateBasic_missing_signer :
  ValidateBasic
    (NewMsgReportInvalid {| Origin := "a"; Destination := "b" |} 3
       (Some [Byte.x01]) (Some [Byte.x02]) (Some []))
  = Some (Wrap ErrInvalidAddress "signer address cannot be empty").
Proof. reflexivity. Qed.

Example Marshal_heights_literal :
  Marshal_heights quote_plain originHeights
  = "{" +:+ dq +:+ "light-1" +:+ dq +:+ ":123," +:+ dq +:+ "other-2" +:+ dq
    +:+ ":456}".
Proof. by vm_compute. Qed.

(** The sample address decodes to its twenty bytes; the placeholder of the
    README does not decode, nor does the sample address under another
    prefix. *)
Example decode_valoper_examples :
  sample.decode_valoper sample.val_address = Ok sample.valAddr
  ∧ is_ok (sample.decode_valoper "cosmosvaloper1...") = false
  ∧ is_ok (sample.decode_valoper
             "cosmos1qypqxpq9qcrsszg2pvxq6rs0zqg3yyc5lzv7xu") = false
  ∧ is_ok (Bech32.ValAddressFromBech32 "cosmos"
             "cosmos1qypqxpq9qcrsszg2pvxq6rs0zqg3yyc5lzv7xu") = true.
Proof. by vm_compute. Qed.

(** With the README's configuration as it stands the process exits at
    startup, at the validator address. *)
Example readme_configuration_exits :
  main quote_plain false (sample.host sample.env_readme)
    [sample.sdk_world true]
  = ([ Log "Invalid validator address: %v"
           [AErr (wrapped "decoding bech32 failed"
                    (errorString "invalid separator index 13"))] ],
     Exited 1).
Proof. by vm_compute. Qed.

(** A tick under the SDK: the heights of the literal are signed and the
    heartbeat ends in the panic of the factory call. In a world whose
    factory call returns, the message built carries the same heights. *)
Example heartbeat_of_a_tick :
  sendHeartbeat quote_plain (sample.sdk_world true) sample.config
    sample.valAddr false
  = ([ Log "Building heartbeat transaction..." [];
       ReadFile "./relayer_key.pem";
       KeyringSign "relayer"
         ("{" +:+ dq +:+ "light-1" +:+ dq +:+ ":123," +:+ dq +:+ "other-2"
          +:+ dq +:+ ":456}") ],
     Panic "runtime error: invalid memory address or nil pointer dereference")
  ∧ hb_OriginHeightsJSON
      <$> built_messages
            (sendHeartbeat quote_plain (sample.world true) sample.config
               sample.valAddr false).1
    = [ "{" +:+ dq +:+ "light-1" +:+ dq +:+ ":123," +:+ dq +:+ "other-2"
        +:+ dq +:+ ":456}" ].
Proof. by vm_compute. Qed.

Lemma terminal_status_is_final_witness :
  run (sample.ops_report ++ sample.ops_later) ∅
    !! key_of (sample.duty Missed)
  = Some (sample.duty Missed).
Proof.
  apply (terminal_status_is_final ∅ sample.ops_report sample.ops_later
           (key_of (sample.duty Missed)) (sample.duty Missed)).
  - by vm_compute.
  - discriminate.
Defined.

(** The dry run with the README's settings, a valid address and valid key
    material, under the SDK: the first tick ends the process. *)
Lemma dry_run_panics_before_printing_witness :
  main quote_plain true (sample.host sample.env_valid)
    [sample.sdk_world true; sample.sdk_world true]
  = ([ Log "Starting duty agent for validator %s"
           [AStr sample.val_address];
       Log "Heartbeat period: %s" [ADuration 30000000000];
       Log "Ticker event: checking for duties and sending heartbeat..." [];
       Log "Querying for duty assignments..." [];
       Log "Building heartbeat transaction..." [];
       ReadFile "./relayer_key.pem";
       KeyringSign "relayer" (Marshal_heights quote_plain originHeights) ],
     Panicked
       "runtime error: invalid memory address or nil pointer dereference").
Proof.
  refine (proj1 (dry_run_panics_before_printing quote_plain
                   (sample.host sample.env_valid) (sample.sdk_world true)
                   [sample.sdk_world true] sample.valAddr
                   [] "armored key" ["relayer"] "relayer"
                   (Some (reverse (String.list_byte_of_string
                                     (Marshal_heights quote_plain
                                        originHeights))))
                   "runtime error: invalid memory address or nil pointer dereference"
                   _ _ _ _ _ _ _ _ _)); by vm_compute.
Defined.

(** Without [RELAYER_BIN] the process exits at startup; without
    [HEARTBEAT_PERIOD] it takes a period of 30 seconds. *)
Lemma startup_requires_six_settings_witness :
  (main quote_plain false (sample.host sample.env_no_relayer_bin)
     [sample.sdk_world true]).2 = Exited 1
  ∧ HeartbeatPeriod (readEnvConfig (sample.host sample.env_no_period)).2
    = (30 * Second)%Z.
Proof.
  split.
  - destruct (proj1 (startup_requires_six_settings quote_plain false
                       (sample.host sample.env_no_relayer_bin)
                       [sample.sdk_world true])) as (err & _ & ->); [|done].
    do 5 right. by vm_compute.
  - eapply (proj2 (proj2 (proj2 (startup_requires_six_settings quote_plain
                                   false (sample.host sample.env_no_period)
                                   [sample.sdk_world true])))).
    by vm_compute.
Defined.

(** The claim of C3 fails for the heartbeat period and for the form of the
    other settings. With a valid validator address, the period unset (or
    set to something that is no duration) and the five other settings
    present but unusable, the process does not exit at startup: it takes 30
    seconds as the period and waits for the ticker; in a tick, the key path
    that leads nowhere is an error that is logged. *)
Lemma absent_period_and_malformed_settings_are_not_fatal :
  os_Getenv (sample.host sample.env_malformed) "HEARTBEAT_PERIOD" = ""
  ∧ is_ok (time_ParseDuration (sample.host sample.env_malformed) "") = false
  ∧ is_ok (time_ParseDuration (sample.host sample.env_malformed) "soon")
    = false
  ∧ main quote_plain false (sample.host sample.env_malformed)
      ([] : list (@World unit unit unit unit))
    = ([ Log "Invalid HEARTBEAT_PERIOD '%s', defaulting to 30s. Error: %v"
             [AStr ""; AErr (errorString "time: invalid duration")];
         Log "Starting duty agent for validator %s"
             [AStr sample.val_address];
         Log "Heartbeat period: %s" [ADuration 30000000000] ],
       Waiting)
  ∧ main quote_plain false (sample.host sample.env_malformed_period)
      ([] : list (@World unit unit unit unit))
    = ([ Log "Invalid HEARTBEAT_PERIOD '%s', defaulting to 30s. Error: %v"
             [AStr "soon"; AErr (errorString "time: invalid duration")];
         Log "Starting duty agent for validator %s"
             [AStr sample.val_address];
         Log "Heartbeat period: %s" [ADuration 30000000000] ],
       Waiting)
  ∧ main quote_plain false (sample.host sample.env_malformed)
      [sample.sdk_world true]
    = ([ Log "Invalid HEARTBEAT_PERIOD '%s', defaulting to 30s. Error: %v"
             [AStr ""; AErr (errorString "time: invalid duration")];
         Log "Starting duty agent for validator %s"
             [AStr sample.val_address];
         Log "Heartbeat period: %s" [ADuration 30000000000];
         Log "Ticker event: checking for duties and sending heartbeat..." [];
         Log "Querying for duty assignments..." [];
         Log "Building heartbeat transaction..." [];
         ReadFile "/no/such/key";
         Log "Error sending heartbeat: %v"
             [AErr (wrapped "failed to read relayer key"
                      (errorString "open: no such file or directory"))] ],
       Waiting).
Proof. by vm_compute. Qed.

(** Under the SDK, with valid key material, the heights of the literal are
    what the keyring is asked to sign. *)
Lemma heartbeat_signs_canonical_heights_witness :
  signed_payloads
    (sendHeartbeat quote_plain (sample.sdk_world true) sample.config
       sample.valAddr false).1
  = [Marshal_heights quote_plain originHeights].
Proof.
  refine (proj1 (proj1 (heartbeat_signs_canonical_heights quote_plain)
                   originHeights (sample.sdk_world true) sample.config
                   sample.valAddr false [] "armored key" ["relayer"]
                   "relayer" _ _ _ _)); by vm_compute.
Defined.


Lemma ValidateBasic_reads_addresses_only_witness :
  ValidateBasic sample.bare_report = None.
Proof.
  apply (proj1 (proj2 (proj2 (proj2 (proj2 (proj2 (proj2
           ValidateBasic_reads_addresses_only))))))); simpl; lia.
Defined.

Lemma GetSignBytes_deterministic_witness :
  GetSignBytes (withMemberOrder sample.package id) sample.bare_report
  = GetSignBytes (withMemberOrder sample.package reverse) sample.bare_report.
Proof.
  refine (proj1 (proj2 (proj2
            (GetSignBytes_deterministic sample.package id reverse _ _)))
            sample.bare_report).
  - reflexivity.
  - apply reverse_Permutation.
Defined.

End concrete.

(** * Further properties of the code *)

(** ** Messages: validation and signers together, layout of the sign bytes *)

Section messages_more.

(** X1: a message that passes [ValidateBasic] has exactly one signer, and
    that signer is not the empty address: for a registration and a
    heartbeat because the validator address is checked, for the two reports
    because [Signer] is. *)
Theorem accepted_message_has_nonempty_signer :
  (∀ msg : MsgRegisterSidecars,
     ValidateBasic msg = None →
     ∃ a, GetSigners msg = [a] ∧ Empty a = false)
  ∧ (∀ msg : MsgHeartbeat,
     ValidateBasic msg = None →
     ∃ a, GetSigners msg = [a] ∧ Empty a = false)
  ∧ (∀ msg : MsgReportMissed,
     ValidateBasic msg = None →
     ∃ a, GetSigners msg = [a] ∧ Empty a = false)
  ∧ (∀ msg : MsgReportInvalid,
     ValidateBasic msg = None →
     ∃ a, GetSigners msg = [a] ∧ Empty a = false).
Proof.
  split; [|split; [|split]]; intros msg Hok; simpl in *;
    eexists; (split; [reflexivity|]); unfold AccAddress_of;
    repeat match goal with
    | H : context [if Empty ?a then _ else _] |- _ =>
        destruct (Empty a) eqn:?
    end; done.
Qed.

Lemma GetSignBytes_sorted_members quote (c : Codec)
    (members : list (string * json)) :
  (∀ l, memberOrder c l ≡ₚ l) → NoDup members.*1 →
  MustSortJSON quote (MustMarshalJSON c members)
  = MustSortJSON quote (JObject members).
Proof.
  intros Hperm Hnd. unfold MustMarshalJSON.
  apply MustSortJSON_member_order; by rewrite ?Hperm.
Qed.

(** X2: the sign bytes of each message are the JSON object whose members
    stand in ascending order of their keys, not in the order of the struct's
    fields, whichever order the codec wrote them in. *)
Theorem GetSignBytes_layout (pkg : Package) :
  (∀ l, memberOrder (ModuleCdc pkg) l ≡ₚ l) →
  let c := ModuleCdc pkg in
  let out := render (jsonQuote pkg) in
  (∀ msg : MsgRegisterSidecars,
     GetSignBytes pkg msg
     = out (JObject
              [ ("relayer_pub_key", sort_keys (encBytes c (rs_RelayerPubKey msg)));
                ("val_addr", sort_keys (encValAddress c (rs_ValAddr msg)));
                ("validator_pub_key",
                 sort_keys (encBytes c (rs_ValidatorPubKey msg))) ]))
  ∧ (∀ msg : MsgHeartbeat,
     GetSignBytes pkg msg
     = out (JObject
              [ ("origin_heights_json",
                 sort_keys (encString c (hb_OriginHeightsJSON msg)));
                ("sig", sort_keys (encBytes c (hb_Sig msg)));
                ("val_addr", sort_keys (encValAddress c (hb_ValAddr msg))) ]))
  ∧ (∀ msg : MsgReportMissed,
     GetSignBytes pkg msg
     = out (JObject
              [ ("assigned_val",
                 sort_keys (encValAddress c (rm_AssignedVal msg)));
                ("dest_non_inclusion_proof",
                 sort_keys (encBytes c (rm_DestNonInclusionProof msg)));
                ("msg_id", sort_keys (encUint64 c (rm_MsgID msg)));
                ("origin_proof", sort_keys (encBytes c (rm_OriginProof msg)));
                ("route", sort_keys (encRoute c (rm_Route msg)));
                ("signer", sort_keys (encAccAddress c (rm_Signer msg))) ]))
  ∧ (∀ msg : MsgReportInvalid,
     GetSignBytes pkg msg
     = out (JObject
              [ ("assigned_val",
                 sort_keys (encValAddress c (ri_AssignedVal msg)));
                ("dest_failure_proof",
                 sort_keys (encBytes c (ri_DestFailureProof msg)));
                ("msg_id", sort_keys (encUint64 c (ri_MsgID msg)));
                ("route", sort_keys (encRoute c (ri_Route msg)));
                ("signer", sort_keys (encAccAddress c (ri_Signer msg))) ])).
Proof.
  intros Hperm c out. subst c out.
  repeat split; intros msg; simpl;
    rewrite GetSignBytes_sorted_members;
    auto using members_RegisterSidecars_keys, members_Heartbeat_keys,
      members_ReportMissed_keys, members_ReportInvalid_keys.
Qed.

End messages_more.

(** ** One heartbeat: the real run beside the dry run *)

Ltac split_trace t1 :=
  repeat (destruct t1 as [|? t1]; simplify_eq/=).

(** The library calls of a heartbeat decided either way, without keeping
    the equations. *)
Ltac all_calls_plain :=
  unfold sendHeartbeat, sendHeartbeatOver, json_Marshal; simpl;
  repeat match goal with
         | |- context [try ?r _] => destruct r; simpl
         | |- context [calling ?c] => destruct c; simpl
         end.

Ltac in_list :=
  repeat first [ apply list_elem_of_here | apply list_elem_of_further ].

Ltac not_in_list :=
  repeat (apply not_elem_of_cons; split; [discriminate|]);
  apply not_elem_of_nil.

Section heartbeat_more.
Import observe.
Context {Keyring KeyRecord TxBuilder RPCClient : Type}.
Context (quote : string → string).
Abbreviation World2 := (@World Keyring KeyRecord TxBuilder RPCClient).
Implicit Types (w : World2) (config : Config) (valAddr : ValAddress).
Implicit Types (dryRun : bool) (t : list Event) (err : error).

(** X3: under the SDK, whose [NewFactoryCLI] panics on the nil flag set
    that [sendHeartbeat] passes, a heartbeat with valid key material ends in
    that panic right after the heights were signed, in a dry run and in a
    real run alike: no transaction is built, printed, or broadcast, and the
    node is not dialled. *)
Theorem heartbeat_ends_at_the_factory w config valAddr dryRun
    kr keyBytes kr' relayerKey sig :
  sdk_panics_on_nil_flags w →
  keyring_New w "duty-agent" = Ok kr →
  os_ReadFile w (RelayerKeyPath config) = Ok keyBytes →
  kr_ImportPrivKey w kr "relayer" keyBytes "password" = Ok kr' →
  kr_Key w kr' "relayer" = Ok relayerKey →
  kr_Sign w kr' "relayer" (Marshal_heights quote originHeights) = Ok sig →
  ∃ reason,
    sendHeartbeat quote w config valAddr dryRun
    = ([ Log "Building heartbeat transaction..." [];
         ReadFile (RelayerKeyPath config);
         KeyringSign "relayer" (Marshal_heights quote originHeights) ],
       Panic reason).
Proof.
  intros Hsdk H1 H2 H3 H4 H5.
  destruct (Hsdk (heartbeatContext w config kr' relayerKey)) as [reason H6].
  exists reason. by eapply heartbeat_panics_at_factory.
Qed.

(** X4: the dry run is faithful to the real run up to the broadcast. Both
    sign the same payload and build the same message; when the dry run
    returns an error or panics, the real run does the same after the same
    events; the dry run returns nil exactly when the keyring, file,
    signing, factory, build and JSON-encoding calls all succeed, which under
    the SDK is never. *)
Theorem dry_run_agrees_with_real_run w config valAddr :
  signed_payloads (sendHeartbeat quote w config valAddr true).1
  = signed_payloads (sendHeartbeat quote w config valAddr false).1
  ∧ built_messages (sendHeartbeat quote w config valAddr true).1
    = built_messages (sendHeartbeat quote w config valAddr false).1
  ∧ (∀ t err,
       sendHeartbeat quote w config valAddr true = (t, Done (Err err)) →
       sendHeartbeat quote w config valAddr false = (t, Done (Err err)))
  ∧ (∀ t reason,
       sendHeartbeat quote w config valAddr true = (t, Panic reason) →
       sendHeartbeat quote w config valAddr false = (t, Panic reason))
  ∧ ((sendHeartbeat quote w config valAddr true).2 = Ok tt
     ↔ ∃ kr keyBytes kr' relayerKey sig txf txb txb' txJSON,
         keyring_New w "duty-agent" = Ok kr
         ∧ os_ReadFile w (RelayerKeyPath config) = Ok keyBytes
         ∧ kr_ImportPrivKey w kr "relayer" keyBytes "password" = Ok kr'
         ∧ kr_Key w kr' "relayer" = Ok relayerKey
         ∧ kr_Sign w kr' "relayer" (Marshal_heights quote originHeights)
           = Ok sig
         ∧ tx_NewFactoryCLI w (heartbeatContext w config kr' relayerKey)
             None = Returns txf
         ∧ tx_BuildUnsignedTx w
             (WithFees (WithGas txf DefaultGasLimit) "200usov")
             (NewMsgHeartbeat valAddr
                (Marshal_heights quote originHeights) sig) = Ok txb
         ∧ tx_Sign w (WithFees (WithGas txf DefaultGasLimit) "200usov")
             "relayer" txb true = Ok txb'
         ∧ TxJSONEncoder w txb' = Ok txJSON)
  ∧ (sdk_panics_on_nil_flags w →
     ∀ dryRun, (sendHeartbeat quote w config valAddr dryRun).2 ≠ Ok tt).
Proof.
  split; [|split; [|split; [|split; [|split]]]].
  - all_calls; reflexivity.
  - all_calls; reflexivity.
  - all_calls; intros; simplify_eq; reflexivity.
  - all_calls; intros; simplify_eq; reflexivity.
  - split.
    + all_calls; intros; simplify_eq. repeat eexists; eauto.
    + intros (kr & keyBytes & kr' & relayerKey & sig & txf & txb & txb'
              & txJSON & H1 & H2 & H3 & H4 & H5 & H6 & H7 & H8 & H9).
      unfold sendHeartbeat, sendHeartbeatOver, json_Marshal. simpl.
      rewrite H1; simpl. rewrite H2; simpl. rewrite H3; simpl.
      rewrite H4; simpl. rewrite H5; simpl. rewrite H6; simpl.
      rewrite H7; simpl. rewrite H8; simpl. by rewrite H9.
  - intros Hsdk dryRun. revert Hsdk. unfold sdk_panics_on_nil_flags.
    all_calls; destruct dryRun; all_calls; intros Hsdk; try discriminate;
      match goal with
      | H : tx_NewFactoryCLI w ?c None = Returns _ |- _ =>
          destruct (Hsdk c) as [reason Hp]; congruence
      end.
Qed.

(** X5: an error of [sendHeartbeat] is always the error of a library call
    wrapped under one of eleven context strings (the marshalling of the
    heights never fails); when it is returned, nothing was printed on
    standard output and no transaction was broadcast successfully: the last
    event is not the success log. *)
Theorem sendHeartbeat_error_is_wrapped w config valAddr dryRun t err :
  sendHeartbeat quote w config valAddr dryRun = (t, Done (Err err)) →
  (∃ context inner,
     err = wrapped context inner ∧ context ∈ heartbeat_error_contexts)
  ∧ count is_Stdout t = 0
  ∧ ∀ txHash,
      Log "Heartbeat sent successfully! TxHash: %s" [AStr txHash] ∉ t.
Proof.
  all_calls; destruct dryRun; all_calls; intros Hrun; simplify_eq;
    (split; [do 2 eexists; split; [reflexivity|];
             unfold heartbeat_error_contexts; in_list|]);
    (split; [reflexivity|]);
    intros txHash; not_in_list.
Qed.

(** X6: a broadcast happens only in a real run, at most once in a call,
    and only after the heights were signed with the relayer key, the
    transaction was signed and the configured RPC endpoint was dialled. *)
Theorem broadcast_comes_after_signing w config valAddr dryRun t1 txBytes t2 :
  (sendHeartbeat quote w config valAddr dryRun).1
  = t1 ++ BroadcastTx txBytes :: t2 →
  dryRun = false
  ∧ KeyringSign "relayer" (Marshal_heights quote originHeights) ∈ t1
  ∧ SignTx "relayer" ∈ t1
  ∧ NewClientFromNode (SovereignRPC config) ∈ t1
  ∧ count is_BroadcastTx (t1 ++ t2) = 0.
Proof.
  destruct dryRun; all_calls_plain; intros Hrun;
    split_trace t1;
    (split; [reflexivity|]); repeat split; in_list.
Qed.

(** X7: the transaction JSON is printed on standard output only in a dry
    run that returns nil, and then exactly once. *)
Theorem stdout_only_in_successful_dry_run w config valAddr dryRun line :
  Stdout line ∈ (sendHeartbeat quote w config valAddr dryRun).1 →
  dryRun = true
  ∧ (sendHeartbeat quote w config valAddr dryRun).2 = Ok tt
  ∧ count is_Stdout (sendHeartbeat quote w config valAddr dryRun).1 = 1.
Proof.
  all_calls; destruct dryRun; all_calls; intros Hin;
    repeat (apply elem_of_cons in Hin as [Hin|Hin]; [discriminate || simplify_eq|]);
    try (by apply elem_of_nil in Hin);
    repeat split.
Qed.

End heartbeat_more.

(** ** The process: startup failures and the ticks of the loop *)

Section process_more.
Import observe.
Context {Keyring KeyRecord TxBuilder RPCClient : Type}.
Context (quote : string → string).
Abbreviation World3 := (@World Keyring KeyRecord TxBuilder RPCClient).
Implicit Types (w : World3) (ws before after : list World3).
Implicit Types (h : Host) (config : Config) (valAddr : ValAddress).

Lemma count_app p (t1 t2 : list Event) :
  count p (t1 ++ t2) = count p t1 + count p t2.
Proof. unfold count. by rewrite List.filter_app, length_app. Qed.

Lemma validateConfig_first_missing config :
  (SovereignRPC config = "" →
   validateConfig config = Some (errorString "SOVEREIGN_RPC must be set"))
  ∧ (SovereignRPC config ≠ "" → SovereignGRPC config = "" →
     validateConfig config = Some (errorString "SOVEREIGN_GRPC must be set"))
  ∧ (SovereignRPC config ≠ "" → SovereignGRPC config ≠ "" →
     SovereignChainID config = "" →
     validateConfig config
     = Some (errorString "SOVEREIGN_CHAIN_ID must be set"))
  ∧ (SovereignRPC config ≠ "" → SovereignGRPC config ≠ "" →
     SovereignChainID config ≠ "" → ValAddr config = "" →
     validateConfig config = Some (errorString "VAL_ADDR must be set"))
  ∧ (SovereignRPC config ≠ "" → SovereignGRPC config ≠ "" →
     SovereignChainID config ≠ "" → ValAddr config ≠ "" →
     RelayerKeyPath config = "" →
     validateConfig config = Some (errorString "RELAYER_KEY_PATH must be set"))
  ∧ (SovereignRPC config ≠ "" → SovereignGRPC config ≠ "" →
     SovereignChainID config ≠ "" → ValAddr config ≠ "" →
     RelayerKeyPath config ≠ "" → RelayerBin config = "" →
     validateConfig config = Some (errorString "RELAYER_BIN must be set")).
Proof.
  unfold validateConfig. repeat split; intros;
    repeat match goal with
    | H : ?x = "" |- _ => rewrite H; clear H
    | H : ?x ≠ "" |- _ => apply String.eqb_neq in H; rewrite H; clear H
    end; reflexivity.
Qed.

(** X8: when several required settings are absent, the fatal log line of
    [main] names the first one in the order SOVEREIGN_RPC, SOVEREIGN_GRPC,
    SOVEREIGN_CHAIN_ID, VAL_ADDR, RELAYER_KEY_PATH, RELAYER_BIN, and the
    process exits with status 1 whatever the later ones are. *)
Theorem main_names_first_missing_setting dryRun h ws :
  let present name := os_Getenv h name ≠ "" in
  let absent name := os_Getenv h name = "" in
  let fatal name :=
    ((readEnvConfig h).1
       ++ [Log "Configuration error: %v"
             [AErr (errorString (name +:+ " must be set"))]],
     Exited 1) in
  (absent "SOVEREIGN_RPC" →
   main quote dryRun h ws = fatal "SOVEREIGN_RPC")
  ∧ (present "SOVEREIGN_RPC" → absent "SOVEREIGN_GRPC" →
     main quote dryRun h ws = fatal "SOVEREIGN_GRPC")
  ∧ (present "SOVEREIGN_RPC" → present "SOVEREIGN_GRPC" →
     absent "SOVEREIGN_CHAIN_ID" →
     main quote dryRun h ws = fatal "SOVEREIGN_CHAIN_ID")
  ∧ (present "SOVEREIGN_RPC" → present "SOVEREIGN_GRPC" →
     present "SOVEREIGN_CHAIN_ID" → absent "VAL_ADDR" →
     main quote dryRun h ws = fatal "VAL_ADDR")
  ∧ (present "SOVEREIGN_RPC" → present "SOVEREIGN_GRPC" →
     present "SOVEREIGN_CHAIN_ID" → present "VAL_ADDR" →
     absent "RELAYER_KEY_PATH" →
     main quote dryRun h ws = fatal "RELAYER_KEY_PATH")
  ∧ (present "SOVEREIGN_RPC" → present "SOVEREIGN_GRPC" →
     present "SOVEREIGN_CHAIN_ID" → present "VAL_ADDR" →
     present "RELAYER_KEY_PATH" → absent "RELAYER_BIN" →
     main quote dryRun h ws = fatal "RELAYER_BIN").
Proof.
  intros present absent fatal. subst present absent fatal. cbv beta.
  destruct (readEnvConfig_fields h) as (Hrpc & Hgrpc & Hid & Hval & Hkey & Hbin).
  cbv zeta in Hrpc, Hgrpc, Hid, Hval, Hkey, Hbin.
  rewrite <-Hrpc, <-Hgrpc, <-Hid, <-Hval, <-Hkey, <-Hbin.
  destruct (validateConfig_first_missing (readEnvConfig h).2)
    as (V1 & V2 & V3 & V4 & V5 & V6).
  repeat split; intros; apply main_configuration_error; auto.
Qed.

(** X9: a run that ends at startup, by a fatal configuration error or by a
    panic of the ticker (that is, a run that does not get to wait for the
    first tick), is the same whatever the ticks would have been, and has
    done nothing but log: no heartbeat was started, no file read, nothing
    signed or sent. *)
Theorem failed_startup_only_logs dryRun h ws :
  (main quote dryRun h ([] : list World3)).2 ≠ Waiting →
  main quote dryRun h ws = main quote dryRun h ([] : list World3)
  ∧ Forall (λ ev, is_Log ev = true) (main quote dryRun h ws).1
  ∧ count is_heartbeat_start (main quote dryRun h ws).1 = 0.
Proof.
  unfold main. destruct (readEnvConfig h) as [t0 config] eqn:Hread.
  assert (Forall (λ ev, is_Log ev = true) t0
          ∧ count is_heartbeat_start t0 = 0) as [Ht0 Hc0].
  { unfold readEnvConfig in Hread.
    destruct (time_ParseDuration h (os_Getenv h "HEARTBEAT_PERIOD"));
      simplify_eq; split; by repeat constructor. }
  assert (∀ t, Forall (λ ev, is_Log ev = true) t →
               count is_heartbeat_start t = 0 →
               Forall (λ ev, is_Log ev = true) (t0 ++ t)
               ∧ count is_heartbeat_start (t0 ++ t) = 0) as Hadd.
  { intros t Ht Hc. split; [by apply Forall_app|].
    by rewrite count_app, Hc0, Hc. }
  destruct (validateConfig config); simpl.
  { intros _. split; [done|]. apply Hadd; by repeat constructor. }
  destruct (sdk_ValAddressFromBech32 h (ValAddr config)) as [valAddr|];
    simpl.
  2: { intros _. split; [done|]. apply Hadd; by repeat constructor. }
  destruct (Z.leb (HeartbeatPeriod config) 0); simpl.
  { intros _. split; [done|]. apply Hadd; by repeat constructor. }
  congruence.
Qed.

(** X10: a heartbeat period that parses to zero or less is taken as it is
    (the default applies to parse errors only); the configuration passes
    validation and the process panics when it creates the ticker, after the
    two startup log lines and before any tick. *)
Theorem nonpositive_period_panics dryRun h ws d valAddr :
  time_ParseDuration h (os_Getenv h "HEARTBEAT_PERIOD") = Ok d →
  (d ≤ 0)%Z →
  validateConfig (readEnvConfig h).2 = None →
  sdk_ValAddressFromBech32 h (os_Getenv h "VAL_ADDR") = Ok valAddr →
  HeartbeatPeriod (readEnvConfig h).2 = d
  ∧ main quote dryRun h ws
    = ([ Log "Starting duty agent for validator %s"
             [AStr (os_Getenv h "VAL_ADDR")];
         Log "Heartbeat period: %s" [ADuration d] ],
       Panicked "non-positive interval for NewTicker").
Proof.
  unfold main, readEnvConfig. intros -> Hd. simpl. intros -> ->.
  split; [done|]. by destruct (Z.leb_spec d 0); [|lia].
Qed.

Lemma tick_has_no_broadcast_in_dry_run config valAddr w :
  Forall (λ ev, is_broadcast ev = false)
    (tick quote config valAddr true w).1.
Proof.
  unfold tick. simpl.
  pose proof (dry_run_trace_has_no_broadcast quote originHeights w config
                valAddr) as Hdry.
  fold (sendHeartbeat quote w config valAddr true) in Hdry.
  destruct (sendHeartbeat quote w config valAddr true)
    as [t [[[]|err]|reason]]; simpl in *;
    repeat (apply Forall_cons; split; [done|]); [done| |done].
  apply Forall_app. split; [done|]. by repeat constructor.
Qed.

Lemma loop_has_no_broadcast_in_dry_run config valAddr ws :
  Forall (λ ev, is_broadcast ev = false)
    (loop quote config valAddr true ws).1.
Proof.
  induction ws as [|w ws IH]; [constructor|].
  pose proof (tick_has_no_broadcast_in_dry_run config valAddr w) as Htick.
  destruct (tick quote config valAddr true w) as [t [r|reason]] eqn:Ht.
  - rewrite (loop_cons_alive _ _ _ _ _ _ _ _ Ht). cbn [fst].
    apply Forall_app. by split.
  - by rewrite (loop_cons_dead _ _ _ _ _ _ _ _ Ht).
Qed.

(** X11: started with the dry-run flag, the agent never dials the RPC
    endpoint and never broadcasts, for any environment, any number of ticks
    and any answers of the library calls. *)
Theorem main_dry_run_never_broadcasts h ws :
  Forall (λ ev, is_broadcast ev = false) (main quote true h ws).1.
Proof.
  pose proof (loop_has_no_broadcast_in_dry_run) as Hloop.
  unfold main.
  destruct (readEnvConfig h) as [t0 config] eqn:Hread.
  assert (Forall (λ ev, is_broadcast ev = false) t0) as Ht0.
  { unfold readEnvConfig in Hread.
    destruct (time_ParseDuration h (os_Getenv h "HEARTBEAT_PERIOD"));
      simplify_eq; by repeat constructor. }
  destruct (validateConfig config); simpl.
  { apply Forall_app. split; [done|]. by repeat constructor. }
  destruct (sdk_ValAddressFromBech32 h (ValAddr config)) as [valAddr|];
    simpl.
  2: { apply Forall_app. split; [done|]. by repeat constructor. }
  destruct (Z.leb (HeartbeatPeriod config) 0); simpl.
  { apply Forall_app. split; [done|]. by repeat constructor. }
  specialize (Hloop config valAddr ws).
  destruct (loop quote config valAddr true ws) as [t2 o]; simpl in *.
  apply Forall_app. split; [done|].
  by repeat (apply Forall_cons; split; [done|]).
Qed.

Lemma tick_counts config valAddr dryRun w :
  count is_heartbeat_start (tick quote config valAddr dryRun w).1 = 1
  ∧ count is_KeyringSign (tick quote config valAddr dryRun w).1 ≤ 1
  ∧ count is_BroadcastTx (tick quote config valAddr dryRun w).1 ≤ 1.
Proof.
  unfold tick. all_calls; destruct dryRun; all_calls;
    repeat split; unfold count; simpl; lia.
Qed.

(** X12: every tick that the process lives to see starts exactly one
    heartbeat, and signs and broadcasts at most once. Over any number of
    ticks the loop starts at most as many heartbeats as there were ticks,
    and exactly as many when the process is still waiting at the end; it
    signs and broadcasts at most once per heartbeat started, whatever
    failed in between. *)
Theorem one_heartbeat_per_tick config valAddr dryRun ws :
  count is_heartbeat_start (loop quote config valAddr dryRun ws).1
  ≤ length ws
  ∧ count is_KeyringSign (loop quote config valAddr dryRun ws).1
    ≤ count is_heartbeat_start (loop quote config valAddr dryRun ws).1
  ∧ count is_BroadcastTx (loop quote config valAddr dryRun ws).1
    ≤ count is_heartbeat_start (loop quote config valAddr dryRun ws).1
  ∧ ((loop quote config valAddr dryRun ws).2 = Waiting →
     count is_heartbeat_start (loop quote config valAddr dryRun ws).1
     = length ws).
Proof.
  induction ws as [|w ws (IH1 & IH2 & IH3 & IH4)]; [by repeat split|].
  destruct (tick_counts config valAddr dryRun w) as (T1 & T2 & T3).
  destruct (tick quote config valAddr dryRun w) as [t [r|reason]] eqn:Ht;
    cbn [fst] in T1, T2, T3.
  - rewrite (loop_cons_alive _ _ _ _ _ _ _ _ Ht). cbn [fst snd length].
    rewrite !count_app. repeat split; try lia.
    intros Halive. specialize (IH4 Halive). lia.
  - rewrite (loop_cons_dead _ _ _ _ _ _ _ _ Ht). cbn [fst snd length].
    repeat split; try lia. discriminate.
Qed.

(** X14: a tick whose [sendHeartbeat] returns an error, as opposed to
    panicking, logs the error and that is all: when the process was alive
    before the tick, the ticks after it run as they would without it. *)
Theorem returned_error_is_logged_and_loop_goes_on config valAddr dryRun
    before w after t err :
  sendHeartbeat quote w config valAddr dryRun = (t, Done (Err err)) →
  (loop quote config valAddr dryRun before).2 = Waiting →
  loop quote config valAddr dryRun (before ++ w :: after)
  = ((loop quote config valAddr dryRun before).1
       ++ ([ Log "Ticker event: checking for duties and sending heartbeat..." [];
             Log "Querying for duty assignments..." [] ]
           ++ t ++ [Log "Error sending heartbeat: %v" [AErr err]])
       ++ (loop quote config valAddr dryRun after).1,
     (loop quote config valAddr dryRun after).2).
Proof.
  intros Hsend Halive.
  rewrite (loop_app_alive _ _ _ _ _ _ Halive).
  by rewrite (loop_cons_alive _ _ _ _ _ _ _ _
                (tick_of_error _ _ _ _ _ _ _ Hsend)).
Qed.

End process_more.

(** ** queryDuties *)

Section query.
Import agent_query.
Context {ClientConn Duty : Type}.
Implicit Types (q : @QueryWorld ClientConn Duty) (config : Config).
Implicit Types (valAddr : ValAddress).

(** X13: [queryDuties] closes the connection exactly when the dial
    succeeded, once, as its last action and also when the query failed; it
    returns the duties of the answer unchanged, and it returns duties only
    if both the dial and the query for this validator succeeded. *)
Theorem queryDuties_closes_its_connection q config valAddr :
  (is_ok (grpc_Dial q (SovereignGRPC config)) = true
   ↔ last (queryDuties q config valAddr).1 = Some GrpcClose)
  ∧ (∀ t1 t2,
       (queryDuties q config valAddr).1 = t1 ++ GrpcClose :: t2 →
       t2 = [] ∧ (GrpcClose ∉ t1)
       ∧ (DutiesRequest (ValAddress_String q valAddr) ∈ t1))
  ∧ (∀ duties,
       (queryDuties q config valAddr).2 = Ok duties
       ↔ ∃ conn,
           grpc_Dial q (SovereignGRPC config) = Ok conn
           ∧ queryClient_Duties q conn (ValAddress_String q valAddr)
             = Ok duties)
  ∧ (∀ err,
       (queryDuties q config valAddr).2 = Err err →
       ∃ inner,
         err = wrapped "failed to dial gRPC" inner
         ∨ err = wrapped "duty query failed" inner).
Proof.
  unfold queryDuties, deferred.
  destruct (grpc_Dial q (SovereignGRPC config)) as [conn|e] eqn:Hdial;
    simpl.
  - destruct (queryClient_Duties q conn (ValAddress_String q valAddr))
      as [ds|e] eqn:Hquery; simpl.
    + split; [done|]. split; [|split].
      * intros t1 t2 Ht. split_trace t1.
        repeat split; [not_in_list|in_list].
      * intros duties. split.
        -- intros [= ->]. by exists conn.
        -- intros (conn' & [= <-] & Hq). congruence.
      * done.
    + split; [done|]. split; [|split].
      * intros t1 t2 Ht. split_trace t1.
        repeat split; [not_in_list|in_list].
      * intros duties. split; [done|].
        intros (conn' & [= <-] & Hq). congruence.
      * intros err [= <-]. eauto.
  - split; [done|]. split; [|split].
    + intros t1 t2 Ht. split_trace t1.
    + intros duties. split; [done|]. by intros (conn' & [=] & _).
    + intros err [= <-]. eauto.
Qed.

End query.

(** ** The further properties at concrete inputs *)

Section concrete_more.
Import observe agent_query.

Lemma accepted_message_has_nonempty_signer_witness :
  ∃ a, GetSigners sample.bare_report = [a] ∧ Empty a = false.
Proof.
  apply (proj1 (proj2 (proj2 accepted_message_has_nonempty_signer))).
  reflexivity.
Defined.

Lemma GetSignBytes_layout_witness :
  GetSignBytes sample.package sample.bare_report
  = render quote_plain
      (JObject
         [ ("assigned_val", JScalar "1");
           ("dest_non_inclusion_proof", JScalar "0");
           ("msg_id", JScalar (quote_plain "0"));
           ("origin_proof", JScalar "0");
           ("route",
            JObject [ ("destination", JScalar (quote_plain ""));
                      ("origin", JScalar (quote_plain "")) ]);
           ("signer", JScalar "1") ]).
Proof.
  refine (proj1 (proj2 (proj2 (GetSignBytes_layout sample.package _)))
            sample.bare_report).
  reflexivity.
Defined.

(** A tick of the real run under the SDK, with valid key material. *)
Lemma heartbeat_ends_at_the_factory_witness :
  ∃ reason,
    sendHeartbeat quote_plain (sample.sdk_world true) sample.config
      sample.valAddr false
    = ([ Log "Building heartbeat transaction..." [];
         ReadFile "./relayer_key.pem";
         KeyringSign "relayer" (Marshal_heights quote_plain originHeights) ],
       Panic reason).
Proof.
  apply (heartbeat_ends_at_the_factory quote_plain (sample.sdk_world true)
           sample.config sample.valAddr false
           [] "armored key" ["relayer"] "relayer"
           (Some (reverse (String.list_byte_of_string
                             (Marshal_heights quote_plain originHeights)))));
    [intros clientCtx; eexists; reflexivity | reflexivity ..].
Defined.

(** The key file cannot be read: the error is the error of [os.ReadFile]
    under its context string. *)
Lemma sendHeartbeat_error_is_wrapped_witness :
  ∃ context inner,
    wrapped "failed to read relayer key"
      (errorString "open: permission denied")
    = wrapped context inner
    ∧ context ∈ heartbeat_error_contexts.
Proof.
  refine (proj1 (sendHeartbeat_error_is_wrapped quote_plain
                   sample.sdk_world_no_key sample.config sample.valAddr false
                   _ _ eq_refl)).
Defined.

(** In a world whose factory accepts the nil flag set. *)
Lemma broadcast_comes_after_signing_witness :
  SignTx "relayer" ∈ sample_more.before_broadcast
  ∧ count is_BroadcastTx
      (sample_more.before_broadcast ++ sample_more.after_broadcast) = 0.
Proof.
  destruct (broadcast_comes_after_signing quote_plain (sample.world true)
              sample.config sample.valAddr false
              sample_more.before_broadcast
              (Marshal_heights quote_plain originHeights)
              sample_more.after_broadcast eq_refl)
    as (_ & _ & Hsign & _ & Hcount).
  by split.
Defined.

(** In a world whose factory accepts the nil flag set. *)
Lemma stdout_only_in_successful_dry_run_witness :
  (sendHeartbeat quote_plain (sample.world false) sample.config
     sample.valAddr true).2 = Ok tt
  ∧ count is_Stdout
      (sendHeartbeat quote_plain (sample.world false) sample.config
         sample.valAddr true).1 = 1.
Proof.
  refine (proj2 (stdout_only_in_successful_dry_run quote_plain
                   (sample.world false) sample.config sample.valAddr true
                   ("tx " +:+ Marshal_heights quote_plain originHeights) _)).
  apply list_elem_of_In. vm_compute. tauto.
Defined.

(** Without the gRPC endpoint and the relayer binary, the log names the
    gRPC endpoint. *)
Lemma main_names_first_missing_setting_witness :
  main quote_plain false (sample.host sample_more.env_two_missing)
    [sample.sdk_world true]
  = ([ Log "Configuration error: %v"
           [AErr (errorString "SOVEREIGN_GRPC must be set")] ],
     Exited 1).
Proof.
  refine (proj1 (proj2 (main_names_first_missing_setting quote_plain false
                          (sample.host sample_more.env_two_missing)
                          [sample.sdk_world true])) _ eq_refl).
  discriminate.
Defined.

(** The README configuration, whose validator address is a placeholder. *)
Lemma failed_startup_only_logs_witness :
  Forall (λ ev, is_Log ev = true)
    (main quote_plain false (sample.host sample.env_readme)
       [sample.sdk_world true]).1
  ∧ count is_heartbeat_start
      (main quote_plain false (sample.host sample.env_readme)
         [sample.sdk_world true]).1 = 0.
Proof.
  refine (proj2 (failed_startup_only_logs quote_plain false
                   (sample.host sample.env_readme)
                   [sample.sdk_world true] _)).
  vm_compute. discriminate.
Defined.

Lemma nonpositive_period_panics_witness :
  HeartbeatPeriod
    (readEnvConfig (sample_more.host sample_more.env_zero_period)).2 = 0%Z
  ∧ main quote_plain false (sample_more.host sample_more.env_zero_period)
      [sample.sdk_world true]
    = ([ Log "Starting duty agent for validator %s"
             [AStr sample.val_address];
         Log "Heartbeat period: %s" [ADuration 0] ],
       Panicked "non-positive interval for NewTicker").
Proof.
  apply (nonpositive_period_panics quote_plain false
           (sample_more.host sample_more.env_zero_period)
           [sample.sdk_world true] 0%Z sample.valAddr);
    [reflexivity|lia|reflexivity|by vm_compute].
Defined.

(** Three ticks under the SDK, the key file unreadable at the first: the
    first heartbeat returns before signing, the second signs and panics,
    the third tick is not lived to see. *)
Example three_ticks_under_the_sdk :
  let run := loop quote_plain sample.config sample.valAddr false
               [sample.sdk_world_no_key; sample.sdk_world true;
                sample.sdk_world true] in
  count is_heartbeat_start run.1 = 2 ∧ count is_KeyringSign run.1 = 1
  ∧ count is_BroadcastTx run.1 = 0
  ∧ run.2
    = Panicked
        "runtime error: invalid memory address or nil pointer dereference".
Proof. by vm_compute. Qed.

(** Two ticks at which the key file cannot be read: two logged errors, and
    the process waits for the third tick. *)
Lemma returned_error_is_logged_and_loop_goes_on_witness :
  let w := sample.sdk_world_no_key in
  let err := wrapped "failed to read relayer key"
               (errorString "open: permission denied") in
  let t := [ Log "Building heartbeat transaction..." [];
             ReadFile "./relayer_key.pem" ] in
  let logged :=
    [ Log "Ticker event: checking for duties and sending heartbeat..." [];
      Log "Querying for duty assignments..." [] ]
    ++ t ++ [Log "Error sending heartbeat: %v" [AErr err]] in
  loop quote_plain sample.config sample.valAddr false [w; w]
  = (logged ++ logged, Waiting).
Proof.
  intros w err t logged.
  exact (returned_error_is_logged_and_loop_goes_on quote_plain sample.config
           sample.valAddr false [] w [w] t err eq_refl eq_refl).
Defined.

(** The query against a node that accepts the connection and fails the
    request: the connection is closed after the request. *)
Example queryDuties_failed_request :
  queryDuties (sample_more.query_world false) sample.config sample.valAddr
  = ([ GrpcDial "localhost:9090"; DutiesRequest sample.val_address;
       GrpcClose ],
     Err (wrapped "duty query failed"
            (errorString "rpc error: code = Unavailable"))).
Proof. reflexivity. Qed.

Lemma queryDuties_closes_its_connection_witness :
  (queryDuties (sample_more.query_world true) sample.config
     sample.valAddr).2 = Ok [1; 2].
Proof.
  apply (proj1 (proj2 (proj2 (queryDuties_closes_its_connection
                                (sample_more.query_world true)
                                sample.config sample.valAddr)))).
  exists "localhost:9090". by split.
Defined.

End concrete_more.
